(** * update_caldb: the CALDB synchronisation script, embedded and verified

    The script [update_caldb.py] has three functions:
    - [open_website]        fetches a page and returns its lines, its text
                            or [None];
    - [get_telescope_links] scans the catalogue page for "tar file" anchors
                            and builds the table (mission, telescope) -> url;
    - [download_files]      downloads and unpacks the archives that are not
                            there yet and registers every instrument.

    The embedding is shallow.  Python [str] values are [string]s, the
    builtins the script calls ([str.split], [str.rsplit], [str.splitlines],
    [str.upper], [re.search]) are executable functions, the operating system
    and the network are a record of operations over an abstract world, and
    the script's functions are written in a state-and-exception monad that
    also records every observable action in a trace. *)

From Stdlib Require Import List String Ascii Bool Arith ZArith Lia.
From Stdlib Require Import Strings.Byte DecimalString.
Import ListNotations.
Local Open Scope list_scope.
Local Open Scope string_scope.

Set Implicit Arguments.

(* ================================================================== *)
(** ** Python strings *)

Module PyStr.

Definition quote : ascii := Ascii.ascii_of_nat 34.
Definition slash : ascii := "/"%char.
Definition LF : ascii := Ascii.ascii_of_nat 10.
Definition CR : ascii := Ascii.ascii_of_nat 13.

(** [c in s] for a one-character [c]. *)
Fixpoint contains_char (c : ascii) (s : string) : bool :=
  match s with
  | EmptyString => false
  | String a s' => if Ascii.eqb a c then true else contains_char c s'
  end.

(** [s.count(c)] for a one-character [c]. *)
Fixpoint count_char (c : ascii) (s : string) : nat :=
  match s with
  | EmptyString => 0
  | String a s' => (if Ascii.eqb a c then 1 else 0) + count_char c s'
  end.

(** [s.split(sep)] for a one-character separator: the pieces between the
    separators, never an empty list. *)
Fixpoint split (sep : ascii) (s : string) : list string :=
  match s with
  | EmptyString => [EmptyString]
  | String a s' =>
      if Ascii.eqb a sep then EmptyString :: split sep s'
      else match split sep s' with
           | h :: t => String a h :: t
           | [] => [String a EmptyString]
           end
  end.

(** [sep.join(parts)]. *)
Fixpoint join (sep : ascii) (parts : list string) : string :=
  match parts with
  | [] => EmptyString
  | [p] => p
  | p :: rest => p ++ String sep (join sep rest)
  end.

(** [s.rsplit(sep, maxsplit)]: at most [maxsplit] cuts, made from the
    right; what is left of the last cut stays in one piece. *)
Definition rsplit (sep : ascii) (maxsplit : nat) (s : string) : list string :=
  let parts := split sep s in
  let n := List.length parts in
  if (n <=? S maxsplit)%nat then parts
  else join sep (firstn (n - maxsplit) parts) :: skipn (n - maxsplit) parts.

(** [parts[-1]] of a list that [split] returned. *)
Definition last_item (parts : list string) : string := last parts EmptyString.

(** [parts[0]] of a list that [split] returned. *)
Definition first_item (parts : list string) : string := hd EmptyString parts.

(** The line boundaries of [str.splitlines] among the first 256 code
    points: LF, VT, FF, CR, FS, GS, RS and NEL. *)
Definition is_linebreak (c : ascii) : bool :=
  let n := Ascii.nat_of_ascii c in
  ((n =? 10) || (n =? 11) || (n =? 12) || (n =? 13)
   || (n =? 28) || (n =? 29) || (n =? 30) || (n =? 133))%nat.

(** [s.splitlines()]: the lines without their boundaries; CR LF is one
    boundary; a final boundary opens no empty last line. *)
Fixpoint splitlines (s : string) : list string :=
  match s with
  | EmptyString => []
  | String a s' =>
      if is_linebreak a then
        match s' with
        | String b s'' =>
            if Ascii.eqb a CR && Ascii.eqb b LF
            then EmptyString :: splitlines s''
            else EmptyString :: splitlines s'
        | EmptyString => [EmptyString]
        end
      else match splitlines s' with
           | h :: t => String a h :: t
           | [] => [String a EmptyString]
           end
  end.

(** [c.upper()] on the ASCII letters; the other characters of the model's
    alphabet are left as they are. *)
Definition upper_char (c : ascii) : ascii :=
  let n := Ascii.nat_of_ascii c in
  if ((97 <=? n) && (n <=? 122))%nat then Ascii.ascii_of_nat (n - 32) else c.

(** [s.upper()]. *)
Fixpoint upper (s : string) : string :=
  match s with
  | EmptyString => EmptyString
  | String a s' => String (upper_char a) (upper s')
  end.

(** [for ch in s]: a string iterates as its one-character strings. *)
Fixpoint chars (s : string) : list string :=
  match s with
  | EmptyString => []
  | String a s' => String a EmptyString :: chars s'
  end.

End PyStr.

(* ================================================================== *)
(** ** Regular expressions, as [re.search] runs them *)

Module Re.

(** The constructs the script's three patterns use.  [Grp n r] is the
    [n]-th capturing group; [AnyStar] is the greedy [.*], whose dot
    matches every character but the line feed. *)
Inductive regex : Type :=
| Lit (p : string)
| AnyStar
| Alt (a b : regex)
| Cat (a b : regex)
| Grp (n : nat) (a : regex).

(** The captures of a match, most recent first. *)
Definition groups := list (nat * string).

Fixpoint strip_prefix (p s : string) : option string :=
  match p, s with
  | EmptyString, _ => Some s
  | String a p', String b s' => if Ascii.eqb a b then strip_prefix p' s' else None
  | String _ _, EmptyString => None
  end.

(** What was consumed between [s] and its suffix [s']. *)
Definition taken (s s' : string) : string :=
  substring 0 (String.length s - String.length s') s.

(** Backtracking matcher in continuation-passing style: alternatives are
    tried left to right, [.*] takes as much as it can and gives back one
    character at a time. *)
Fixpoint mtch (r : regex) (k : string -> groups -> option groups)
  {struct r} : string -> groups -> option groups :=
  match r with
  | Lit p => fun s g =>
      match strip_prefix p s with
      | Some s' => k s' g
      | None => None
      end
  | AnyStar =>
      fix star (s : string) (g : groups) {struct s} : option groups :=
        match s with
        | EmptyString => k s g
        | String a s' =>
            if Ascii.eqb a PyStr.LF then k s g
            else match star s' g with
                 | Some m => Some m
                 | None => k s g
                 end
        end
  | Alt a b => fun s g =>
      match mtch a k s g with
      | Some m => Some m
      | None => mtch b k s g
      end
  | Cat a b => mtch a (mtch b k)
  | Grp n a => fun s g =>
      mtch a (fun s' g' => k s' ((n, taken s s') :: g')) s g
  end.

(** [re.match(r, s)]: a match that starts at the first character. *)
Definition match_here (r : regex) (s : string) : option groups :=
  mtch r (fun _ g => Some g) s [].

(** [re.search(r, s)]: the match at the leftmost position that has one;
    [None] when no position has. *)
Fixpoint search (r : regex) (s : string) : option groups :=
  match match_here r s with
  | Some m => Some m
  | None =>
      match s with
      | EmptyString => None
      | String _ s' => search r s'
      end
  end.

(** [m.group(n)]; [None] for a group that took no part in the match. *)
Fixpoint group (m : groups) (n : nat) : option string :=
  match m with
  | [] => None
  | (i, v) :: m' => if Nat.eqb i n then Some v else group m' n
  end.

(** Truth value of a search result: [None] is false, a match is true. *)
Definition found (m : option groups) : bool :=
  match m with Some _ => true | None => false end.

(** The language of a pattern. *)
Fixpoint lang (r : regex) (w : string) : Prop :=
  match r with
  | Lit p => w = p
  | AnyStar => PyStr.contains_char PyStr.LF w = false
  | Alt a b => lang a w \/ lang b w
  | Cat a b => exists u v, w = u ++ v /\ lang a u /\ lang b v
  | Grp _ a => lang a w
  end.

(** Whether a continuation succeeds does not depend on the captures. *)
Definition blind (k : string -> groups -> option groups) : Prop :=
  forall s g g', k s g = None -> k s g' = None.

Definition accepts (k : string -> groups -> option groups) (s : string) : Prop :=
  k s [] <> None.

End Re.

(* ================================================================== *)
(** ** The Python runtime: exceptions, the world, the trace *)

(** The exceptions that reach the script.  [HTTPError] and [URLError] are
    the two [urllib.error] classes [open_website] tells apart; [URLError]
    carries its rendering [str(e)]. *)
Inductive exn : Type :=
| AttributeError
| TypeError
| ValueError
| HTTPError (code : Z)
| URLError (text : string)
| OtherError (name : string).

Inductive result (A : Type) : Type :=
| Ret (a : A)
| Raise (e : exn).
Arguments Ret {A} a.
Arguments Raise {A} e.

(** What [urlopen] hands back: the charset parameter of the Content-Type
    header, when there is one, and the body that [read()] returns. *)
Record response : Type := mkResponse {
  charset : option string;
  body : list byte
}.

(** [subprocess.CompletedProcess]. *)
Record CompletedProcess : Type := mkCompleted {
  returncode : Z;
  stdout : list byte;
  stderr : list byte
}.

(** Everything the script observes of its environment or does to it. *)
Inductive event : Type :=
| Print (text : string)
| Chdir (dir : string)
| UrlOpen (url : string) (timeout : Z)
| UrlRetrieve (url filename : string)
| Run (argv : list string) (capture_output : bool).

(** The operating system and the network, over a world [W] that the
    script cannot inspect.  Every call may raise; a call that changes the
    world returns the new one. *)
Record OS (W : Type) : Type := mkOS {
  getenv : string -> W -> option string;
  chdir : string -> W -> result unit * W;
  urlopen : string -> Z -> W -> result response * W;
  decode : string -> list byte -> result string;
  path_exists : string -> W -> bool;
  urlretrieve : string -> string -> W -> result unit * W;
  run : list string -> bool -> W -> result CompletedProcess * W
}.

(** A computation returns or raises, leaves a world, and emits events. *)
Definition M (W A : Type) : Type := W -> result A * W * list event.

Definition ret {W A} (a : A) : M W A := fun w => (Ret a, w, []).

Definition raise {W A} (e : exn) : M W A := fun w => (Raise e, w, []).

Definition bind {W A B} (m : M W A) (f : A -> M W B) : M W B :=
  fun w =>
    match m w with
    | (Ret a, w1, t1) => let '(r, w2, t2) := f a w1 in (r, w2, (t1 ++ t2)%list)
    | (Raise e, w1, t1) => (Raise e, w1, t1)
    end.

(** [try: m except: h]. *)
Definition try_except {W A} (m : M W A) (h : exn -> M W A) : M W A :=
  fun w =>
    match m w with
    | (Ret a, w1, t1) => (Ret a, w1, t1)
    | (Raise e, w1, t1) => let '(r, w2, t2) := h e w1 in (r, w2, (t1 ++ t2)%list)
    end.

(** A pure step that may raise. *)
Definition lift {W A} (r : result A) : M W A := fun w => (r, w, []).

(** A call to the environment, recorded in the trace. *)
Definition call {W A} (ev : event) (op : W -> result A * W) : M W A :=
  fun w => let '(r, w1) := op w in (r, w1, [ev]).

Definition print {W} (text : string) : M W unit := fun w => (Ret tt, w, [Print text]).

Notation "x <- m ;; k" := (bind m (fun x => k))
  (at level 61, m at next level, right associativity).
Notation "m ;;; k" := (bind m (fun _ => k))
  (at level 61, right associativity).

(** [for x in xs: body x]; an exception in the body leaves the loop. *)
Fixpoint for_each {W A} (xs : list A) (body : A -> M W unit) : M W unit :=
  match xs with
  | [] => ret tt
  | x :: xs' => body x ;;; for_each xs' body
  end.

Definition outcome {W A} (x : result A * W * list event) : result A := fst (fst x).
Definition world_of {W A} (x : result A * W * list event) : W := snd (fst x).
Definition trace {W A} (x : result A * W * list event) : list event := snd x.

(* ================================================================== *)
(** ** The link table: a [dict], which keeps insertion order *)

Definition key : Type := string * string.

Definition dict : Type := list (key * string).

Definition key_eqb (a b : key) : bool :=
  String.eqb (fst a) (fst b) && String.eqb (snd a) (snd b).

(** [d[k] = v]: a key that is there keeps its place and takes the new
    value, a new key goes to the end. *)
Fixpoint dict_set (k : key) (v : string) (d : dict) : dict :=
  match d with
  | [] => [(k, v)]
  | (k', v') :: d' =>
      if key_eqb k' k then (k, v) :: d' else (k', v') :: dict_set k v d'
  end.

(** [d.items()]. *)
Definition items (d : dict) : list (key * string) := d.

(* ================================================================== *)
(** ** The script *)

(** What [open_website] returns besides [None]. *)
Inductive page : Type :=
| Lines (ls : list string)
| Text (html : string).

(** [for line in lines]. *)
Definition iterate (p : page) : list string :=
  match p with
  | Lines ls => ls
  | Text html => PyStr.chars html
  end.

(** [format(code)] of an integer: its decimal digits. *)
Definition format_int (n : Z) : string := NilZero.string_of_int (Z.to_int n).

(** The pattern of line 83: [(A|a)], dot-star, [(HREF|href)=], dot-star,
    [(T|t)ar file]. *)
Definition tar_file_pattern : Re.regex :=
  Re.Cat (Re.Grp 1 (Re.Alt (Re.Lit "A") (Re.Lit "a")))
  (Re.Cat Re.AnyStar
  (Re.Cat (Re.Grp 2 (Re.Alt (Re.Lit "HREF") (Re.Lit "href")))
  (Re.Cat (Re.Lit "=")
  (Re.Cat Re.AnyStar
  (Re.Cat (Re.Grp 3 (Re.Alt (Re.Lit "T") (Re.Lit "t")))
          (Re.Lit "ar file")))))).

(** The pattern of line 84: [(HREF|href)=], a double quote, a second
    group that holds a greedy dot-star, and a double quote. *)
Definition href_pattern : Re.regex :=
  Re.Cat (Re.Grp 1 (Re.Alt (Re.Lit "HREF") (Re.Lit "href")))
  (Re.Cat (Re.Lit (String "=" (String PyStr.quote "")))
  (Re.Cat (Re.Grp 2 Re.AnyStar)
          (Re.Lit (String PyStr.quote "")))).

(** The pattern of line 130: [ERROR]. *)
Definition error_pattern : Re.regex := Re.Lit "ERROR".

(** Lines 84-86: the captured value, cut at its first quote when it has
    one. *)
Definition clean_url (captured : string) : string :=
  if PyStr.contains_char PyStr.quote captured
  then PyStr.first_item (PyStr.split PyStr.quote captured)
  else captured.

(** Lines 87-88: the unpacking of [rsplit('/', 3)] into four names raises
    [ValueError] unless there are four pieces. *)
Definition store_link (compressed_url : string) (links : dict) : result dict :=
  match PyStr.rsplit PyStr.slash 3 compressed_url with
  | [_; mission; telescope; file_name] =>
      Ret (dict_set (mission, telescope) compressed_url links)
  | _ => Raise ValueError
  end.

(** The body of the loop of [get_telescope_links], lines 83-88. *)
Definition scan_line (line : string) (links : dict) : result dict :=
  if Re.found (Re.search tar_file_pattern line) then
    match Re.search href_pattern line with
    | None => Raise AttributeError
    | Some m =>
        match Re.group m 2 with
        | None => Raise TypeError
        | Some captured => store_link (clean_url captured) links
        end
    end
  else Ret links.

(** The loop of [get_telescope_links], lines 82-88. *)
Fixpoint scan_lines (lines : list string) (links : dict) : result dict :=
  match lines with
  | [] => Ret links
  | line :: rest =>
      match scan_line line links with
      | Ret links' => scan_lines rest links'
      | Raise e => Raise e
      end
  end.

Definition catalogue_url : string :=
  "https://heasarc.gsfc.nasa.gov/docs/heasarc/caldb/caldb_supported_missions.html".

(** [link.split('/')[-1]] *)
Definition local_name (link : string) : string :=
  PyStr.last_item (PyStr.split PyStr.slash link).

Definition caldbinfo_argv (k : key) : list string :=
  ["caldbinfo"; "INST"; PyStr.upper (fst k); PyStr.upper (snd k)].

Section Script.

Variable W : Type.
Variable os : OS W.

(** [open_website], lines 14-57. *)
Definition open_website (url : string) (timeout : Z) (split verbose : bool)
  : M W (option page) :=
  try_except
    ((if verbose then print ("Loading " ++ url) else ret tt) ;;;
     website <- call (UrlOpen url timeout) (urlopen os url timeout) ;;
     let encoding :=
       match charset website with Some c => c | None => "utf8" end in
     html <- lift (decode os encoding (body website)) ;;
     if split then ret (Some (Lines (PyStr.splitlines html)))
     else ret (Some (Text html)))
    (fun e =>
       match e with
       | HTTPError code =>
           print ("Cannot retrieve URL: HTTP Error Code " ++ format_int code) ;;;
           ret None
       | URLError text =>
           print ("Could not access the URL " ++ text) ;;;
           ret None
       | _ =>
           print "Unknown problem accessing URL." ;;;
           ret None
       end).

(** [get_telescope_links], lines 61-90. *)
Definition get_telescope_links : M W (option dict) :=
  lines <- open_website catalogue_url 90 true true ;;
  match lines with
  | None => ret None
  | Some p =>
      links <- lift (scan_lines (iterate p) []) ;;
      ret (Some links)
  end.

(** The body of the first loop of [download_files], lines 110-118. *)
Definition download_entry (entry : key * string) : M W unit :=
  let '(k, link) := entry in
  fun w =>
    if negb (path_exists os (local_name link) w) then
      try_except
        (print ("Downloading " ++ fst k ++ " " ++ snd k) ;;;
         call (UrlRetrieve link (local_name link))
              (urlretrieve os link (local_name link)) ;;;
         print ("Unpacking " ++ fst k ++ " " ++ snd k) ;;;
         call (Run ["tar"; "-xzf"; local_name link] false)
              (run os ["tar"; "-xzf"; local_name link] false) ;;;
         ret tt)
        (fun _ => print "Problem downloading file.")
        w
    else ret tt w.

(** The body of the second loop of [download_files], lines 123-131. *)
Definition initialize_entry (entry : key * string) : M W unit :=
  let '(k, link) := entry in
  if String.eqb (fst k) "data" then ret tt
  else
    print ("Initializing " ++ fst k ++ " " ++ snd k) ;;;
    p <- call (Run (caldbinfo_argv k) true) (run os (caldbinfo_argv k) true) ;;
    shown <- lift (decode os "utf-8" (stdout p)) ;;
    print shown ;;;
    searched <- lift (decode os "utf-8" (stdout p)) ;;
    if Re.found (Re.search error_pattern searched)
    then print ("Problem downloading " ++ local_name link)
    else ret tt.

(** [download_files], lines 93-131. *)
Definition download_files : M W unit :=
  fun w =>
    match getenv os "CALDB" w with
    | None => print "CALDB environment variable not set. Exiting." w
    | Some caldb_dir =>
        (call (Chdir caldb_dir) (chdir os caldb_dir) ;;;
         links <- get_telescope_links ;;
         match links with
         | None => raise AttributeError
         | Some d =>
             for_each (items d) download_entry ;;;
             for_each (items d) initialize_entry
         end) w
    end.

End Script.

(* ================================================================== *)
(** ** A simulated machine, to run the script on *)

Module Sim.

(** The working directory's files, the value of CALDB, what the catalogue
    request gives, the archive urls that cannot be fetched, the programs
    on the PATH and what [caldbinfo] answers. *)
Record world : Type := mkWorld {
  files : list string;
  caldb : option string;
  catalogue : result response;
  unreachable : list string;
  installed : list string;
  caldbinfo : list string -> CompletedProcess
}.

Definition mem (x : string) (xs : list string) : bool :=
  existsb (String.eqb x) xs.

Definition with_file (f : string) (w : world) : world :=
  mkWorld (f :: files w) (caldb w) (catalogue w) (unreachable w)
          (installed w) (caldbinfo w).

Definition sim_urlretrieve (url f : string) (w : world) : result unit * world :=
  if mem url (unreachable w) then (Raise (HTTPError 404), w)
  else (Ret tt, with_file f w).

Definition sim_run (argv : list string) (capture : bool) (w : world)
  : result CompletedProcess * world :=
  match argv with
  | [] => (Raise (OtherError "IndexError"), w)
  | program :: _ =>
      if mem program (installed w) then
        if String.eqb program "caldbinfo" then (Ret (caldbinfo w argv), w)
        else (Ret (mkCompleted 0 [] []), w)
      else (Raise (OtherError "FileNotFoundError"), w)
  end.

Definition os : OS world :=
  mkOS
    (fun name w => if String.eqb name "CALDB" then caldb w else None)
    (fun _ w => (Ret tt, w))
    (fun _ _ w => (catalogue w, w))
    (fun _ bs => Ret (string_of_list_byte bs))
    (fun f w => mem f (files w))
    sim_urlretrieve
    sim_run.

(** The same machine when the directory CALDB names is not there. *)
Definition no_directory : OS world :=
  mkOS (getenv os)
       (fun _ w => (Raise (OtherError "FileNotFoundError"), w))
       (urlopen os) (decode os) (path_exists os) (urlretrieve os) (run os).

(** The same machine with a codec that takes seven-bit bytes only. *)
Definition seven_bit : OS world :=
  mkOS (getenv os) (chdir os) (urlopen os)
       (fun _ bs =>
          if forallb (fun b => N.ltb (Byte.to_N b) 128) bs
          then Ret (string_of_list_byte bs)
          else Raise (OtherError "UnicodeDecodeError"))
       (path_exists os) (urlretrieve os) (run os).

Definition page_of (html : string) : result response :=
  Ret (mkResponse None (list_byte_of_string html)).

Definition quiet (argv : list string) : CompletedProcess :=
  mkCompleted 0 [] [].

End Sim.

(* ================================================================== *)
(** ** A simulated machine with a working directory *)

Module Cwd.

(** A file is a directory and a name.  [os.path.exists] of a relative
    name looks in the working directory, [os.chdir] moves to the
    directory given, an absolute path, and fails for the empty path; a
    download lands in the working directory.  The rest is the machine of
    [Sim]. *)
Record world : Type := mkWorld {
  cwd : string;
  disk : list (string * string);
  machine : Sim.world
}.

Definition on_disk (dir f : string) (w : world) : bool :=
  existsb (fun p => String.eqb (fst p) dir && String.eqb (snd p) f) (disk w).

Definition cwd_chdir (dir : string) (w : world) : result unit * world :=
  if String.eqb dir "" then (Raise (OtherError "FileNotFoundError"), w)
  else (Ret tt, mkWorld dir (disk w) (machine w)).

Definition cwd_urlretrieve (url f : string) (w : world) : result unit * world :=
  if Sim.mem url (Sim.unreachable (machine w)) then (Raise (HTTPError 404), w)
  else (Ret tt, mkWorld (cwd w) ((cwd w, f) :: disk w) (machine w)).

Definition cwd_run (argv : list string) (capture : bool) (w : world)
  : result CompletedProcess * world :=
  (fst (Sim.sim_run argv capture (machine w)), w).

Definition os : OS world :=
  mkOS
    (fun name w => getenv Sim.os name (machine w))
    cwd_chdir
    (fun _ _ w => (Sim.catalogue (machine w), w))
    (decode Sim.os)
    (fun f w => on_disk (cwd w) f w)
    cwd_urlretrieve
    cwd_run.

(** The machine is in the directory [d]. *)
Definition home (d : string) (w : world) : Prop := cwd w = d.

End Cwd.

(* ================================================================== *)
(** ** Reading a trace, and what is asked of a file system *)

(** The local names the run asked [urlretrieve] to write. *)
Fixpoint downloads (t : list event) : list string :=
  match t with
  | [] => []
  | UrlRetrieve _ f :: t' => f :: downloads t'
  | _ :: t' => downloads t'
  end.

(** The command lines the run started. *)
Fixpoint commands (t : list event) : list (list string) :=
  match t with
  | [] => []
  | Run argv _ :: t' => argv :: commands t'
  | _ :: t' => commands t'
  end.


(** No url of the table holds a double quote. *)
Definition quote_free (d : dict) : Prop :=
  forall k url, In (k, url) d -> PyStr.contains_char PyStr.quote url = false.


(** The text a finished process wrote, both streams taken together. *)
Definition combined_output {W} (os : OS W) (p : CompletedProcess) : result string :=
  decode os "utf-8" (stdout p ++ stderr p)%list.

(** What [get_telescope_links] makes of the answer of [urlopen]. *)
Definition table_of {W} (os : OS W) (fetched : result response)
  : result (option dict) :=
  match fetched with
  | Raise _ => Ret None
  | Ret website =>
      match decode os (match charset website with Some c => c | None => "utf8" end)
                   (body website) with
      | Raise _ => Ret None
      | Ret html =>
          match scan_lines (PyStr.splitlines html) [] with
          | Ret d => Ret (Some d)
          | Raise e => Raise e
          end
      end
  end.

(** An operation keeps the files that are there. *)
Definition keeps_files {W A} (os : OS W) (op : W -> result A * W) : Prop :=
  forall w f, path_exists os f w = true -> path_exists os f (snd (op w)) = true.

(** A file system in which the calls the script makes once it is in its
    directory delete nothing.  Nothing is asked of [os.chdir]: a change of
    directory may well change what a relative name finds. *)
Record retentive {W} (os : OS W) : Prop := mkRetentive {
  urlopen_keeps : forall u t, keeps_files os (urlopen os u t);
  urlretrieve_keeps : forall u f, keeps_files os (urlretrieve os u f);
  run_keeps : forall argv c, keeps_files os (run os argv c)
}.

(** A machine with a working directory, [home d w] saying that [w] is in
    [d]: [os.chdir] into [d] ends there, going where one is changes
    nothing a relative name finds, and the other calls stay where they
    are. *)
Record homing {W} (os : OS W) (home : string -> W -> Prop) : Prop := mkHoming {
  chdir_enters : forall d w u w1, chdir os d w = (Ret u, w1) -> home d w1;
  home_is_idle :
    forall d w f, home d w ->
                  path_exists os f (snd (chdir os d w)) = path_exists os f w;
  urlopen_stays : forall d u t w, home d w -> home d (snd (urlopen os u t w));
  urlretrieve_stays :
    forall d u f w, home d w -> home d (snd (urlretrieve os u f w));
  run_stays : forall d argv c w, home d w -> home d (snd (run os argv c w))
}.

(** A computation keeps the files that are there. *)
Definition grows {W A} (os : OS W) (m : M W A) : Prop :=
  forall w f, path_exists os f w = true -> path_exists os f (world_of (m w)) = true.

(** A computation downloads only to names that are free when it starts. *)
Definition fresh {W A} (os : OS W) (m : M W A) : Prop :=
  forall w f, In f (downloads (trace (m w))) -> path_exists os f w = false.

(** The claim's reading of a tar-file link: the line holds an anchor
    element whose label holds the phrase tar file, in whatever case. *)
Definition labelled_tar_file (line : string) : Prop :=
  exists before tag attributes label after,
    line = before ++ "<" ++ tag ++ attributes ++ ">" ++ label
           ++ "</" ++ tag ++ ">" ++ after
    /\ PyStr.upper tag = "A"
    /\ exists l r, PyStr.upper label = l ++ "TAR FILE" ++ r.

(** The catalogue a run started in [w] is given: what [urlopen] answers
    once the run has moved to the directory CALDB names. *)
Definition catalogue_seen {W} (os : OS W) (w : W) : option (result response) :=
  match getenv os "CALDB" w with
  | Some caldb_dir =>
      Some (fst (urlopen os catalogue_url 90 (snd (chdir os caldb_dir w))))
  | None => None
  end.

(** The destination a run started in [w] is given: the directory CALDB
    names and whether it can be entered. *)
Definition destination_seen {W} (os : OS W) (w : W) : option (string * result unit) :=
  match getenv os "CALDB" w with
  | Some caldb_dir => Some (caldb_dir, fst (chdir os caldb_dir w))
  | None => None
  end.

(* ================================================================== *)
(** ** Reading the table and the matcher's captures *)

(** Line 40: the charset of the answer, utf8 when it names none. *)
Definition encoding_of (website : response) : string :=
  match charset website with Some c => c | None => "utf8" end.

(** The fetch of a page failed: [urlopen] raised, or the decoding did. *)
Definition fetch_failed {W} (os : OS W) (url : string) (timeout : Z) (w : W) : Prop :=
  (exists e, fst (urlopen os url timeout w) = Raise e)
  \/ (exists website e,
        fst (urlopen os url timeout w) = Ret website
        /\ decode os (encoding_of website) (body website) = Raise e).


(** [list(d.keys())]. *)
Definition keys (d : dict) : list key := map fst d.

(** Whether the test of line 83 takes the line. *)
Definition is_tar_line (line : string) : bool :=
  Re.found (Re.search tar_file_pattern line).

(** The command line of the first loop for a local file. *)
Definition tar_argv (f : string) : list string := ["tar"; "-xzf"; f].

(** A word of the pattern together with the captures its groups make:
    [derives r u g g'] when [u] is a word of [r] and matching it turns the
    captures [g] into [g']. *)
Fixpoint derives (r : Re.regex) (u : string) (g g' : Re.groups) : Prop :=
  match r with
  | Re.Lit p => u = p /\ g' = g
  | Re.AnyStar => PyStr.contains_char PyStr.LF u = false /\ g' = g
  | Re.Alt a b => derives a u g g' \/ derives b u g g'
  | Re.Cat a b =>
      exists u1 u2 g1, u = u1 ++ u2 /\ derives a u1 g g1 /\ derives b u2 g1 g'
  | Re.Grp n a => exists g1, derives a u g g1 /\ g' = (n, u) :: g1
  end.

(** Every url of the table ends in mission, telescope and file name, the
    two of its key and the name the driver saves it under. *)
Definition keyed_by_path (d : dict) : Prop :=
  forall k url,
    In (k, url) d ->
    exists front,
      PyStr.rsplit "/" 3 url = [front; fst k; snd k; local_name url]
      /\ url = front ++ "/" ++ fst k ++ "/" ++ snd k ++ "/" ++ local_name url
      /\ PyStr.contains_char "/" (fst k) = false
      /\ PyStr.contains_char "/" (snd k) = false
      /\ PyStr.contains_char "/" (local_name url) = false.

(* ================================================================== *)
(** ** Sample pages and machines *)

Module Sample.

Definition quoted (s : string) : string :=
  String PyStr.quote (s ++ String PyStr.quote "").

(** An anchor line of the catalogue page. *)
Definition anchor (tag attr url label : string) : string :=
  "<LI><" ++ tag ++ " " ++ attr ++ "=" ++ quoted url ++ ">" ++ label
  ++ "</" ++ tag ++ ">".

Definition nustar_url : string :=
  "https://heasarc.gsfc.nasa.gov/FTP/caldb/data/nustar/fpm/goodfiles_nustar_fpm.tar.Z".

Definition data_url : string :=
  "https://heasarc.gsfc.nasa.gov/FTP/caldb/data/gen/goodfiles_gen.tar.Z".

Definition nustar_line : string := anchor "A" "HREF" nustar_url "Tar file".

Definition data_line : string := anchor "a" "href" data_url "tar file".

(** An anchor with a second quoted attribute after the href. *)
Definition stray_line : string :=
  "<LI><a href=" ++ quoted nustar_url ++ " class=" ++ quoted "ext"
  ++ ">tar file</a>".

(** What the greedy group takes from [stray_line]. *)
Definition stray_capture : string :=
  nustar_url ++ String PyStr.quote " class=" ++ String PyStr.quote "ext".

(** An anchor whose href has two slashes only. *)
Definition short_line : string := anchor "a" "href" "fpm/goodfiles.tar.Z" "tar file".

(** Two anchors, one per line. *)
Definition page : string :=
  nustar_line ++ String PyStr.LF data_line ++ String PyStr.LF "".

Definition tools : list string := ["tar"; "caldbinfo"].

(** CALDB is set, the catalogue is served, nothing is there yet. *)
Definition online : Sim.world :=
  Sim.mkWorld [] (Some "/caldb") (Sim.page_of page) [] tools Sim.quiet.

(** The catalogue request is answered with status 404. *)
Definition offline : Sim.world :=
  Sim.mkWorld [] (Some "/caldb") (Raise (HTTPError 404)) [] tools Sim.quiet.

(** CALDB is not set. *)
Definition unconfigured : Sim.world :=
  Sim.mkWorld [] None (Sim.page_of page) [] tools Sim.quiet.

(** [caldbinfo] complains on its standard error only. *)
Definition complaint : CompletedProcess :=
  mkCompleted 1 [] (list_byte_of_string "ERROR: instrument not found").

Definition complaining : Sim.world :=
  Sim.mkWorld [] (Some "/caldb") (Sim.page_of page) [] tools (fun _ => complaint).

(** [caldbinfo] complains on its standard output. *)
Definition loud : Sim.world :=
  Sim.mkWorld [] (Some "/caldb") (Sim.page_of page) [] tools
    (fun _ => mkCompleted 0 (list_byte_of_string "CALDB ERROR: no index") []).

(** The archive of the first anchor cannot be fetched. *)
Definition flaky : Sim.world :=
  Sim.mkWorld [] (Some "/caldb") (Sim.page_of page) [nustar_url] tools Sim.quiet.

(** A later archive of the same instrument. *)
Definition nustar_patch_url : string :=
  "https://heasarc.gsfc.nasa.gov/FTP/caldb/data/nustar/fpm/goodfiles_nustar_fpm_patch.tar.Z".

Definition nustar_patch_line : string := anchor "A" "HREF" nustar_patch_url "Tar file".

(** An anchor whose href is not quoted. *)
Definition unquoted_line : string :=
  "<LI><a href=" ++ nustar_url ++ ">tar file</a>".

(** A page whose second anchor has a short href. *)
Definition malformed_page : string :=
  nustar_line ++ String PyStr.LF short_line ++ String PyStr.LF "".

Definition malformed : Sim.world :=
  Sim.mkWorld [] (Some "/caldb") (Sim.page_of malformed_page) [] tools Sim.quiet.

(** A page without any anchor. *)
Definition plain : Sim.world :=
  Sim.mkWorld [] (Some "/caldb") (Sim.page_of "<HTML>no links</HTML>") [] tools
              Sim.quiet.

(** [caldbinfo] writes a byte that is no text. *)
Definition garbled : Sim.world :=
  Sim.mkWorld [] (Some "/caldb") (Sim.page_of page) [] tools
              (fun _ => mkCompleted 0 [Byte.xff] []).

(** An anchor whose second quoted attribute holds slashes. *)
Definition slashed_line : string :=
  "<LI><a href=" ++ quoted "fpm/goodfiles.tar.Z" ++ " class=" ++ quoted "x/y/z/w"
  ++ ">tar file</a>".

(** What the greedy group takes from [slashed_line]. *)
Definition slashed_capture : string :=
  "fpm/goodfiles.tar.Z" ++ String PyStr.quote " class=" ++ String PyStr.quote "x/y/z/w".

(** The run starts in /home, where an archive of the catalogue's name
    lies; the directory CALDB names is empty. *)
Definition elsewhere : Cwd.world :=
  Cwd.mkWorld "/home" [("/home", "goodfiles_gen.tar.Z")] online.

(** Neither [tar] nor [caldbinfo] is on the PATH. *)
Definition bare : Sim.world :=
  Sim.mkWorld [] (Some "/caldb") (Sim.page_of page) [] [] Sim.quiet.

(** The machine with a working directory on which the first archive
    cannot be fetched. *)
Definition flaky_disk : Cwd.world := Cwd.mkWorld "/home" [] flaky.

(** The machine with a working directory and no programs. *)
Definition bare_disk : Cwd.world := Cwd.mkWorld "/home" [] bare.

End Sample.

(* ================================================================== *)
(** ** Strings: what the builtins guarantee *)

Section StringFacts.

Lemma append_assoc (s t u : string) : (s ++ t) ++ u = s ++ (t ++ u).
Proof. induction s as [|a s IH]; simpl; [reflexivity | now rewrite IH]. Qed.

Lemma contains_char_app (c : ascii) (s t : string) :
  PyStr.contains_char c (s ++ t)
  = PyStr.contains_char c s || PyStr.contains_char c t.
Proof.
  induction s as [|a s IH]; simpl; [reflexivity|].
  destruct (Ascii.eqb a c); [reflexivity | exact IH].
Qed.

Lemma count_char_app (c : ascii) (s t : string) :
  PyStr.count_char c (s ++ t) = PyStr.count_char c s + PyStr.count_char c t.
Proof.
  induction s as [|a s IH]; simpl; [reflexivity|]. rewrite IH. lia.
Qed.

(** [split] never returns the empty list, and cuts once per separator. *)
Lemma split_length (sep : ascii) (s : string) :
  List.length (PyStr.split sep s) = S (PyStr.count_char sep s).
Proof.
  induction s as [|a s IH]; simpl; [reflexivity|].
  destruct (Ascii.eqb a sep); simpl; [now rewrite IH|].
  destruct (PyStr.split sep s) as [|h t]; simpl in *; [discriminate | exact IH].
Qed.

(** No piece of a [split] holds the separator. *)
Lemma split_pieces (sep : ascii) (s : string) :
  Forall (fun p => PyStr.contains_char sep p = false) (PyStr.split sep s).
Proof.
  induction s as [|a s IH]; simpl.
  - constructor; [reflexivity | constructor].
  - destruct (Ascii.eqb a sep) eqn:E.
    + constructor; [reflexivity | exact IH].
    + destruct (PyStr.split sep s) as [|h t].
      * constructor; [simpl; now rewrite E | constructor].
      * inversion IH; subst. constructor; [simpl; now rewrite E | assumption].
Qed.

(** Joining the pieces with the separator gives the string back. *)
Lemma join_split (sep : ascii) (s : string) :
  PyStr.join sep (PyStr.split sep s) = s.
Proof.
  induction s as [|a s IH]; simpl; [reflexivity|].
  destruct (Ascii.eqb a sep) eqn:E.
  - apply Ascii.eqb_eq in E; subst a.
    destruct (PyStr.split sep s) as [|h t] eqn:S.
    + pose proof (split_length sep s) as L. rewrite S in L. discriminate.
    + change (String sep (PyStr.join sep (h :: t)) = String sep s).
      now rewrite IH.
  - destruct (PyStr.split sep s) as [|h t] eqn:S.
    + pose proof (split_length sep s) as L. rewrite S in L. discriminate.
    + destruct t as [|h' t'].
      * simpl in *. now subst.
      * change (String a (h ++ String sep (PyStr.join sep (h' :: t'))) = String a s).
        f_equal. exact IH.
Qed.

(** The first piece is what stands before the first separator. *)
Lemma split_first (sep : ascii) (s : string) :
  PyStr.contains_char sep s = true ->
  exists rest,
    s = PyStr.first_item (PyStr.split sep s) ++ String sep rest.
Proof.
  induction s as [|a s IH]; simpl; [discriminate|].
  destruct (Ascii.eqb a sep) eqn:E.
  - intros _. apply Ascii.eqb_eq in E; subst a. now exists s.
  - intros H. destruct (IH H) as [rest Hr].
    destruct (PyStr.split sep s) as [|h t]; simpl in *.
    + exists rest. now rewrite Hr at 1.
    + exists rest. now rewrite Hr at 1.
Qed.

Lemma skipn_last_three (A : Type) (d : A) (n : nat) :
  forall l : list A,
    List.length l = n + 3 ->
    skipn n l = [nth n l d; nth (n + 1) l d; nth (n + 2) l d].
Proof.
  induction n as [|n IH]; intros l L.
  - destruct l as [|a [|b [|c [|e l]]]]; simpl in L; try lia. reflexivity.
  - destruct l as [|a l]; simpl in L; [lia|].
    simpl. apply IH. lia.
Qed.

End StringFacts.

(* ================================================================== *)
(** ** The matcher finds a match exactly when the pattern has one *)

Section MatcherFacts.

Import Re.

Lemma blind_accepts k s g : blind k -> (k s g <> None <-> accepts k s).
Proof.
  intros B. unfold accepts. split; intros H E; apply H; eapply B; exact E.
Qed.

Lemma strip_prefix_spec (p s s' : string) :
  strip_prefix p s = Some s' <-> s = p ++ s'.
Proof.
  revert s. induction p as [|a p IH]; intros s; simpl.
  - split; [intros [= ->]; reflexivity | intros ->; reflexivity].
  - destruct s as [|b s]; [split; discriminate|].
    destruct (Ascii.eqb a b) eqn:E.
    + apply Ascii.eqb_eq in E; subst b. rewrite IH.
      split; [intros ->; reflexivity | intros [= ->]; reflexivity].
    + split; [discriminate|]. intros [= -> _].
      rewrite Ascii.eqb_refl in E. discriminate.
Qed.

(** The greedy loop of the dot-star, one character at a time. *)
Lemma anystar_cons k a s g :
  mtch AnyStar k (String a s) g =
  if Ascii.eqb a PyStr.LF then k (String a s) g
  else match mtch AnyStar k s g with
       | Some m => Some m
       | None => k (String a s) g
       end.
Proof. reflexivity. Qed.

Lemma anystar_sound k s g :
  mtch AnyStar k s g <> None ->
  exists u v, s = u ++ v /\ PyStr.contains_char PyStr.LF u = false
              /\ k v g <> None.
Proof.
  induction s as [|a s IH]; intros H.
  - exists "", "". auto.
  - rewrite anystar_cons in H. destruct (Ascii.eqb a PyStr.LF) eqn:E.
    + exists "", (String a s). auto.
    + destruct (mtch AnyStar k s g) eqn:M.
      * destruct IH as (u & v & -> & Hu & Hk); [discriminate|].
        exists (String a u), v. simpl. rewrite E. auto.
      * exists "", (String a s). auto.
Qed.

Lemma anystar_skip k s g : k s g <> None -> mtch AnyStar k s g <> None.
Proof.
  destruct s as [|a s]; [auto|]. intros H. rewrite anystar_cons.
  destruct (Ascii.eqb a PyStr.LF); [exact H|].
  destruct (mtch AnyStar k s g); [discriminate | exact H].
Qed.

Lemma anystar_complete k u v g :
  PyStr.contains_char PyStr.LF u = false ->
  k v g <> None ->
  mtch AnyStar k (u ++ v) g <> None.
Proof.
  induction u as [|a u IH]; intros Hu Hk.
  - now apply anystar_skip.
  - simpl in Hu. destruct (Ascii.eqb a PyStr.LF) eqn:E; [discriminate|].
    specialize (IH Hu Hk). change (String a u ++ v) with (String a (u ++ v)).
    rewrite anystar_cons, E.
    destruct (mtch AnyStar k (u ++ v) g); [discriminate | contradiction].
Qed.

(** [mtch r k] succeeds on [s] exactly when [s] starts with a word of
    the pattern that the continuation accepts the rest after. *)
Lemma mtch_spec (r : regex) :
  forall k, blind k ->
    forall s g,
      mtch r k s g <> None <->
      exists u v, s = u ++ v /\ lang r u /\ accepts k v.
Proof.
  induction r as [p | | a IHa b IHb | a IHa b IHb | n a IHa]; intros k B s g.
  - simpl. destruct (strip_prefix p s) as [s'|] eqn:E.
    + apply strip_prefix_spec in E. subst s. rewrite (blind_accepts _ _ B).
      split.
      * intros H. exists p, s'. auto.
      * intros (u & v & E & L & H). simpl in L. subst u.
        assert (strip_prefix p (p ++ s') = Some v) as S
          by (apply strip_prefix_spec; exact E).
        assert (strip_prefix p (p ++ s') = Some s') as S'
          by (now apply strip_prefix_spec).
        congruence.
    + split; [congruence|]. intros (u & v & E' & L & _). simpl in L. subst u s.
      assert (strip_prefix p (p ++ v) = Some v) as S
        by (now apply strip_prefix_spec).
      congruence.
  - split.
    + intros H. apply anystar_sound in H. destruct H as (u & v & -> & Hu & Hk).
      exists u, v. rewrite (blind_accepts _ _ B) in Hk. auto.
    + intros (u & v & -> & Hu & Hk). apply anystar_complete; [exact Hu|].
      now apply (blind_accepts _ _ B).
  - simpl. split.
    + intros H. destruct (mtch a k s g) eqn:M.
      * assert (mtch a k s g <> None) as M' by congruence.
        apply (IHa k B) in M'. destruct M' as (u & v & ? & ? & ?).
        exists u, v. auto.
      * apply (IHb k B) in H. destruct H as (u & v & ? & ? & ?).
        exists u, v. auto.
    + intros (u & v & E & [L|L] & K).
      * assert (mtch a k s g <> None) as M
            by (apply (IHa k B); exists u, v; auto).
        destruct (mtch a k s g); [discriminate | contradiction].
      * destruct (mtch a k s g); [discriminate|].
        apply (IHb k B). exists u, v. auto.
  - simpl.
    assert (blind (mtch b k)) as Bb.
    { intros s0 g0 g1 E.
      destruct (mtch b k s0 g1) eqn:E1; [|reflexivity]. exfalso.
      assert (mtch b k s0 g1 <> None) as N by congruence.
      apply (IHb k B) in N. apply (IHb k B s0 g0) in N. contradiction. }
    rewrite (IHa _ Bb). split.
    + intros (u & v & -> & La & K). apply (IHb k B) in K.
      destruct K as (u' & v' & -> & Lb & K).
      exists (u ++ u'), v'. rewrite append_assoc. split; [reflexivity|].
      split; [exists u, u'; auto | exact K].
    + intros (w & v' & -> & (u & u' & -> & La & Lb) & K).
      exists u, (u' ++ v'). rewrite append_assoc. split; [reflexivity|].
      split; [exact La|]. apply (IHb k B). exists u', v'. auto.
  - change (mtch (Grp n a) k s g)
      with (mtch a (fun s' g' => k s' ((n, taken s s') :: g')) s g).
    change (lang (Grp n a)) with (lang a).
    pose (k' := fun (s' : string) (g' : groups) => k s' ((n, taken s s') :: g')).
    assert (blind k') as B' by (intros s0 g0 g1; unfold k'; apply B).
    change (mtch a k' s g <> None <->
            exists u v, s = u ++ v /\ lang a u /\ accepts k v).
    rewrite (IHa _ B'). split; intros (u & v & E & L & K); exists u, v;
      (split; [exact E|]; split; [exact L|]).
    + unfold accepts, k' in K. now apply (blind_accepts _ _ B) in K.
    + unfold accepts, k'. now apply (blind_accepts _ _ B).
Qed.

Lemma match_here_spec (r : regex) (s : string) :
  found (match_here r s) = true <-> exists u v, s = u ++ v /\ lang r u.
Proof.
  unfold match_here.
  assert (blind (fun (_ : string) (g : groups) => Some g)) as B
    by (intros ? ? ? ?; discriminate).
  pose proof (mtch_spec r B s []) as H.
  destruct (mtch r (fun _ g => Some g) s []) eqn:E; simpl.
  - split; [intros _|reflexivity].
    destruct H as [H _]. destruct H as (u & v & ? & ? & _); [discriminate|].
    exists u, v. auto.
  - split; [discriminate|]. intros (u & v & ? & ?). exfalso.
    apply H; [|reflexivity]. exists u, v. unfold accepts.
    repeat split; auto. discriminate.
Qed.

(** [re.search] answers with a match exactly when some part of the
    string is a word of the pattern. *)
Lemma search_spec (r : regex) (s : string) :
  found (search r s) = true <->
  exists p u v, s = p ++ u ++ v /\ lang r u.
Proof.
  induction s as [|a s IH].
  - simpl. pose proof (match_here_spec r "") as H.
    destruct (match_here r "") eqn:E; simpl in *.
    + split; [intros _|reflexivity].
      destruct H as [H _]. destruct (H eq_refl) as (u & v & ? & ?).
      exists "", u, v. auto.
    + split; [discriminate|]. intros (p & u & v & E' & L).
      destruct p; [|discriminate]. apply H. exists u, v. auto.
  - simpl. pose proof (match_here_spec r (String a s)) as H.
    destruct (match_here r (String a s)) eqn:E; simpl in *.
    + split; [intros _|reflexivity].
      destruct H as [H _]. destruct (H eq_refl) as (u & v & ? & ?).
      exists "", u, v. auto.
    + rewrite IH. split.
      * intros (p & u & v & -> & L). exists (String a p), u, v. auto.
      * intros (p & u & v & E' & L). destruct p as [|b p].
        -- exfalso. assert (false = true) as X; [|discriminate].
           apply H. exists u, v. auto.
        -- injection E' as -> ->. exists p, u, v. auto.
Qed.

End MatcherFacts.

(* ================================================================== *)
(** ** The monad: how traces and outcomes compose *)

Section MonadFacts.

Variable W : Type.

Lemma for_each_cons (A : Type) (x : A) (xs : list A) (body : A -> M W unit) (w : W) :
  for_each (x :: xs) body w =
  match body x w with
  | (Ret _, w1, t1) =>
      let '(r, w2, t2) := for_each xs body w1 in (r, w2, (t1 ++ t2)%list)
  | (Raise e, w1, t1) => (Raise e, w1, t1)
  end.
Proof. reflexivity. Qed.

(** A loop whose body never raises runs to its end. *)
Lemma for_each_returns (A : Type) (body : A -> M W unit) :
  (forall x w, outcome (body x w) = Ret tt) ->
  forall xs w, outcome (for_each xs body w) = Ret tt.
Proof.
  intros Hb xs. induction xs as [|x xs IH]; intros w; [reflexivity|].
  rewrite for_each_cons. specialize (Hb x w).
  destruct (body x w) as [[[u|e] w1] t1]; simpl in Hb; [|discriminate].
  specialize (IH w1). destruct (for_each xs body w1) as [[r w2] t2].
  exact IH.
Qed.

(** A loop whose body does nothing does nothing. *)
Lemma for_each_idle (A : Type) (body : A -> M W unit) (w : W) :
  forall xs,
    (forall x, In x xs -> body x w = (Ret tt, w, [])) ->
    for_each xs body w = (Ret tt, w, []).
Proof.
  induction xs as [|x xs IH]; intros Hb; [reflexivity|].
  rewrite for_each_cons, (Hb x (or_introl eq_refl)), IH; [reflexivity|].
  intros y Hy. apply Hb. now right.
Qed.

Lemma downloads_app (t u : list event) :
  downloads (t ++ u) = (downloads t ++ downloads u)%list.
Proof.
  induction t as [|e t IH]; [reflexivity|].
  destruct e; simpl; now rewrite IH.
Qed.


End MonadFacts.

(* ================================================================== *)
(** ** The script, step by step *)

Section ScriptFacts.

Variable W : Type.
Variable os : OS W.

(** [open_website] never raises; what it returns and prints is decided
    by the answer of [urlopen] and by the codec. *)
Lemma open_website_eq (url : string) (timeout : Z) (split verbose : bool) (w : W) :
  open_website os url timeout split verbose w =
  let loading := if verbose then [Print ("Loading " ++ url)] else [] in
  let asked := (loading ++ [UrlOpen url timeout])%list in
  match urlopen os url timeout w with
  | (Ret website, w1) =>
      match decode os (match charset website with Some c => c | None => "utf8" end)
                   (body website) with
      | Ret html =>
          (Ret (Some (if split then Lines (PyStr.splitlines html) else Text html)),
           w1, asked)
      | Raise (HTTPError code) =>
          (Ret None, w1,
           (asked ++ [Print ("Cannot retrieve URL: HTTP Error Code " ++ format_int code)])%list)
      | Raise (URLError text) =>
          (Ret None, w1, (asked ++ [Print ("Could not access the URL " ++ text)])%list)
      | Raise _ =>
          (Ret None, w1, (asked ++ [Print "Unknown problem accessing URL."])%list)
      end
  | (Raise (HTTPError code), w1) =>
      (Ret None, w1,
       (asked ++ [Print ("Cannot retrieve URL: HTTP Error Code " ++ format_int code)])%list)
  | (Raise (URLError text), w1) =>
      (Ret None, w1, (asked ++ [Print ("Could not access the URL " ++ text)])%list)
  | (Raise _, w1) =>
      (Ret None, w1, (asked ++ [Print "Unknown problem accessing URL."])%list)
  end.
Proof.
  unfold open_website, try_except, bind, call, lift, print, ret.
  destruct verbose; simpl;
    destruct (urlopen os url timeout w) as [[website|e] w1]; simpl;
    try (destruct e; reflexivity);
    destruct (decode os _ (body website)) as [html|e]; simpl;
    try (destruct e; reflexivity);
    destruct split; reflexivity.
Qed.

(** The first loop's body never raises: whatever goes wrong between the
    download and the unpacking ends in the one message. *)
Lemma download_entry_eq (k : key) (link : string) (w : W) :
  download_entry os (k, link) w =
  let f := local_name link in
  let downloading :=
    [Print ("Downloading " ++ fst k ++ " " ++ snd k); UrlRetrieve link f] in
  let unpacking :=
    [Print ("Unpacking " ++ fst k ++ " " ++ snd k); Run ["tar"; "-xzf"; f] false] in
  if path_exists os f w then (Ret tt, w, [])
  else
    match urlretrieve os link f w with
    | (Raise _, w1) =>
        (Ret tt, w1, (downloading ++ [Print "Problem downloading file."])%list)
    | (Ret _, w1) =>
        match run os ["tar"; "-xzf"; f] false w1 with
        | (Raise _, w2) =>
            (Ret tt, w2,
             (downloading ++ unpacking ++ [Print "Problem downloading file."])%list)
        | (Ret _, w2) => (Ret tt, w2, (downloading ++ unpacking)%list)
        end
    end.
Proof.
  unfold download_entry, try_except, bind, call, print, ret.
  destruct (path_exists os (local_name link) w); simpl; [reflexivity|].
  destruct (urlretrieve os link (local_name link) w) as [[u|e] w1]; simpl;
    [|reflexivity].
  destruct (run os _ false w1) as [[p|e] w2]; reflexivity.
Qed.

(** The second loop's body, by what [caldbinfo] and the codec answer. *)
Lemma initialize_entry_eq (k : key) (link : string) (w : W) :
  initialize_entry os (k, link) w =
  if String.eqb (fst k) "data" then (Ret tt, w, [])
  else
    let started :=
      [Print ("Initializing " ++ fst k ++ " " ++ snd k); Run (caldbinfo_argv k) true] in
    match run os (caldbinfo_argv k) true w with
    | (Raise e, w1) => (Raise e, w1, started)
    | (Ret p, w1) =>
        match decode os "utf-8" (stdout p) with
        | Raise e => (Raise e, w1, started)
        | Ret text =>
            (Ret tt, w1,
             (started ++ Print text ::
                (if Re.found (Re.search error_pattern text)
                 then [Print ("Problem downloading " ++ local_name link)]
                 else []))%list)
        end
    end.
Proof.
  unfold initialize_entry, bind, call, lift, print, ret.
  destruct (String.eqb (fst k) "data"); [reflexivity|].
  destruct (run os (caldbinfo_argv k) true w) as [[p|e] w1]; simpl; [|reflexivity].
  destruct (decode os "utf-8" (stdout p)) as [text|e]; simpl; [|reflexivity].
  destruct (Re.found (Re.search error_pattern text)); reflexivity.
Qed.

(** [get_telescope_links]: the table is a function of what was fetched. *)
Lemma get_telescope_links_eq (w : W) :
  exists t,
    get_telescope_links os w =
    (table_of os (fst (urlopen os catalogue_url 90 w)),
     snd (urlopen os catalogue_url 90 w), t)
    /\ downloads t = [] /\ commands t = [].
Proof.
  unfold get_telescope_links, bind. rewrite open_website_eq.
  unfold table_of, lift, ret.
  destruct (urlopen os catalogue_url 90 w) as [[website|e] w1]; simpl.
  - destruct (decode os _ (body website)) as [html|e]; simpl.
    + destruct (scan_lines (PyStr.splitlines html) []) as [d|e]; simpl;
        eexists; (split; [reflexivity | split; reflexivity]).
    + destruct e; simpl; eexists; (split; [reflexivity | split; reflexivity]).
  - destruct e; simpl; eexists; (split; [reflexivity | split; reflexivity]).
Qed.

(** [download_files] once CALDB is set. *)
Lemma download_files_eq (w : W) (caldb_dir : string) :
  getenv os "CALDB" w = Some caldb_dir ->
  download_files os w =
  match chdir os caldb_dir w with
  | (Raise e, w1) => (Raise e, w1, [Chdir caldb_dir])
  | (Ret _, w1) =>
      match get_telescope_links os w1 with
      | (Raise e, w2, t) => (Raise e, w2, Chdir caldb_dir :: t)
      | (Ret None, w2, t) => (Raise AttributeError, w2, Chdir caldb_dir :: t)
      | (Ret (Some d), w2, t) =>
          match for_each (items d) (download_entry os) w2 with
          | (Raise e, w3, t3) => (Raise e, w3, Chdir caldb_dir :: (t ++ t3)%list)
          | (Ret _, w3, t3) =>
              let '(r, w4, t4) := for_each (items d) (initialize_entry os) w3 in
              (r, w4, Chdir caldb_dir :: (t ++ t3 ++ t4)%list)
          end
      end
  end.
Proof.
  intros E. unfold download_files. rewrite E. unfold bind, call, raise.
  destruct (chdir os caldb_dir w) as [[u|e] w1]; simpl; [|reflexivity].
  destruct (get_telescope_links os w1) as [[[[d|]|e] w2] t]; simpl;
    try reflexivity.
  - destruct (for_each (items d) (download_entry os) w2) as [[[u3|e] w3] t3];
      simpl; [|reflexivity].
    destruct (for_each (items d) (initialize_entry os) w3) as [[r w4] t4].
    reflexivity.
  - now rewrite app_nil_r.
Qed.

End ScriptFacts.

(* ================================================================== *)
(** ** The driver's early ends *)

(** C9.  When the CALDB variable is not set, [download_files] prints the
    one message and returns: it raises nothing, leaves the world as it
    found it (no change of directory), asks for no page and downloads
    nothing. *)
Theorem missing_caldb_ends_the_run (W : Type) (os : OS W) (w : W) :
  getenv os "CALDB" w = None ->
  download_files os w =
  (Ret tt, w, [Print "CALDB environment variable not set. Exiting."]).
Proof.
  intros E. unfold download_files. now rewrite E.
Qed.

Lemma missing_caldb_ends_the_run_witness :
  getenv Sim.os "CALDB" Sample.unconfigured = None
  /\ download_files Sim.os Sample.unconfigured =
     (Ret tt, Sample.unconfigured,
      [Print "CALDB environment variable not set. Exiting."]).
Proof.
  split; [reflexivity|].
  apply (missing_caldb_ends_the_run Sim.os Sample.unconfigured). reflexivity.
Defined.

(** When the page cannot be had, [get_telescope_links] returns [None]. *)
Lemma get_telescope_links_none (W : Type) (os : OS W) (w w1 : W) (e : exn) :
  urlopen os catalogue_url 90 w = (Raise e, w1) ->
  outcome (get_telescope_links os w) = Ret None
  /\ world_of (get_telescope_links os w) = w1.
Proof.
  intros E. destruct (get_telescope_links_eq os w) as (t & -> & _).
  rewrite E. split; reflexivity.
Qed.

(** With [None] for a table the driver reaches [links.items()] and raises;
    it has downloaded nothing by then. *)
Lemma download_files_no_table (W : Type) (os : OS W) (w w1 w2 : W)
      (caldb_dir : string) (t : list event) :
  getenv os "CALDB" w = Some caldb_dir ->
  chdir os caldb_dir w = (Ret tt, w1) ->
  get_telescope_links os w1 = (Ret None, w2, t) ->
  download_files os w = (Raise AttributeError, w2, Chdir caldb_dir :: t).
Proof.
  intros E C G. rewrite (download_files_eq os w E), C, G. reflexivity.
Qed.

(** C1.  On a machine whose catalogue request is answered with status 404
    the extractor returns [None] and the driver then raises
    [AttributeError] out of [download_files]: it has attempted no
    download, but the run does not end normally. *)
Theorem no_catalogue_raises_attribute_error :
  outcome (get_telescope_links Sim.os Sample.offline) = Ret None
  /\ download_files Sim.os Sample.offline =
     (Raise AttributeError, Sample.offline,
      [Chdir "/caldb";
       Print ("Loading " ++ catalogue_url);
       UrlOpen catalogue_url 90;
       Print "Cannot retrieve URL: HTTP Error Code 404"])
  /\ downloads (trace (download_files Sim.os Sample.offline)) = [].
Proof.
  split; [reflexivity | split; reflexivity].
Qed.

(* ================================================================== *)
(** ** The page fetcher's two modes *)

(** C10.  When [open_website] without [split] returns the text [html], the
    same call with [split] returns [html.splitlines()], in the same world
    and after the same actions. *)
Theorem open_website_split_is_splitlines
        (W : Type) (os : OS W) (url : string) (timeout : Z) (verbose : bool)
        (w w' : W) (html : string) (t : list event) :
  open_website os url timeout false verbose w = (Ret (Some (Text html)), w', t) ->
  open_website os url timeout true verbose w =
  (Ret (Some (Lines (PyStr.splitlines html))), w', t).
Proof.
  rewrite !open_website_eq. cbv zeta.
  destruct (urlopen os url timeout w) as [[website|e] w1].
  - destruct (decode os _ (body website)) as [h|e].
    + intros [= <- <- <-]. reflexivity.
    + destruct e; discriminate.
  - destruct e; discriminate.
Qed.

Lemma open_website_split_is_splitlines_witness :
  open_website Sim.os catalogue_url 90 false true Sample.online =
  (Ret (Some (Text Sample.page)), Sample.online,
   [Print ("Loading " ++ catalogue_url); UrlOpen catalogue_url 90])
  /\ open_website Sim.os catalogue_url 90 true true Sample.online =
     (Ret (Some (Lines [Sample.nustar_line; Sample.data_line])), Sample.online,
      [Print ("Loading " ++ catalogue_url); UrlOpen catalogue_url 90]).
Proof.
  assert (open_website Sim.os catalogue_url 90 false true Sample.online =
          (Ret (Some (Text Sample.page)), Sample.online,
           [Print ("Loading " ++ catalogue_url); UrlOpen catalogue_url 90])) as H
    by reflexivity.
  split; [exact H|].
  exact (open_website_split_is_splitlines Sim.os catalogue_url 90 true
           Sample.online H).
Defined.

(** No line of [splitlines] holds a line boundary. *)
Lemma splitlines_lines (s : string) :
  Forall (fun l => forall c, PyStr.is_linebreak c = true ->
                             PyStr.contains_char c l = false)
         (PyStr.splitlines s).
Proof.
  assert (forall n (s : string), String.length s <= n ->
            Forall (fun l => forall c, PyStr.is_linebreak c = true ->
                                       PyStr.contains_char c l = false)
                   (PyStr.splitlines s)) as G.
  { induction n as [|n IH]; intros [|a s'] L; simpl in L; try lia;
      try (constructor; fail).
    simpl. destruct (PyStr.is_linebreak a) eqn:B.
    - destruct s' as [|b s''].
      + constructor; [intros; reflexivity | constructor].
      + destruct (Ascii.eqb a PyStr.CR && Ascii.eqb b PyStr.LF);
          (constructor; [intros; reflexivity|]); apply IH; simpl in *; lia.
    - assert (Forall (fun l => forall c, PyStr.is_linebreak c = true ->
                                         PyStr.contains_char c l = false)
                     (PyStr.splitlines s')) as F by (apply IH; lia).
      assert (forall c, PyStr.is_linebreak c = true -> Ascii.eqb a c = false) as N.
      { intros c Hc. destruct (Ascii.eqb a c) eqn:E; [|reflexivity].
        apply Ascii.eqb_eq in E. congruence. }
      destruct (PyStr.splitlines s') as [|h tl].
      + constructor; [|constructor]. intros c Hc. simpl. now rewrite (N c Hc).
      + inversion F; subst. constructor; [|assumption].
        intros c Hc. simpl. rewrite (N c Hc). auto. }
  apply (G (String.length s)). lia.
Qed.

(* ================================================================== *)
(** ** The first loop: download and unpack *)

(** C7.  In the first loop an exception of the download or of the
    unpacking is caught: the entry's step prints the one generic message
    and returns, the loop goes on with the next entry, and the loop as a
    whole always runs to its end. *)
Theorem download_loop_survives_failures (W : Type) (os : OS W) :
  (forall k link w e w1,
      path_exists os (local_name link) w = false ->
      urlretrieve os link (local_name link) w = (Raise e, w1) ->
      download_entry os (k, link) w =
      (Ret tt, w1,
       [Print ("Downloading " ++ fst k ++ " " ++ snd k);
        UrlRetrieve link (local_name link);
        Print "Problem downloading file."]))
  /\ (forall k link w u w1 e w2,
      path_exists os (local_name link) w = false ->
      urlretrieve os link (local_name link) w = (Ret u, w1) ->
      run os ["tar"; "-xzf"; local_name link] false w1 = (Raise e, w2) ->
      download_entry os (k, link) w =
      (Ret tt, w2,
       [Print ("Downloading " ++ fst k ++ " " ++ snd k);
        UrlRetrieve link (local_name link);
        Print ("Unpacking " ++ fst k ++ " " ++ snd k);
        Run ["tar"; "-xzf"; local_name link] false;
        Print "Problem downloading file."]))
  /\ (forall entry rest w,
      for_each (entry :: rest) (download_entry os) w =
      let '(_, w1, t1) := download_entry os entry w in
      let '(r, w2, t2) := for_each rest (download_entry os) w1 in
      (r, w2, (t1 ++ t2)%list))
  /\ (forall d w, outcome (for_each (items d) (download_entry os) w) = Ret tt).
Proof.
  assert (forall entry w, outcome (download_entry os entry w) = Ret tt) as R.
  { intros [k link] w. rewrite download_entry_eq. cbv zeta.
    destruct (path_exists os (local_name link) w); [reflexivity|].
    destruct (urlretrieve os link (local_name link) w) as [[u|e] w1];
      [|reflexivity].
    destruct (run os _ false w1) as [[p|e] w2]; reflexivity. }
  repeat split.
  - intros k link w e w1 P U. rewrite download_entry_eq. cbv zeta.
    rewrite P, U. reflexivity.
  - intros k link w u w1 e w2 P U T. rewrite download_entry_eq. cbv zeta.
    rewrite P, U, T. reflexivity.
  - intros entry rest w. rewrite for_each_cons. specialize (R entry w).
    destruct (download_entry os entry w) as [[[u|e] w1] t1]; [reflexivity|].
    discriminate.
  - intros d w. now apply for_each_returns.
Qed.

Lemma download_loop_survives_failures_witness :
  let nustar := (("nustar", "fpm"), Sample.nustar_url) in
  let data := (("data", "gen"), Sample.data_url) in
  download_entry Sim.os nustar Sample.flaky =
  (Ret tt, Sample.flaky,
   [Print "Downloading nustar fpm";
    UrlRetrieve Sample.nustar_url "goodfiles_nustar_fpm.tar.Z";
    Print "Problem downloading file."])
  /\ download_entry Sim.os nustar Sample.bare =
     (Ret tt, Sim.with_file "goodfiles_nustar_fpm.tar.Z" Sample.bare,
      [Print "Downloading nustar fpm";
       UrlRetrieve Sample.nustar_url "goodfiles_nustar_fpm.tar.Z";
       Print "Unpacking nustar fpm";
       Run ["tar"; "-xzf"; "goodfiles_nustar_fpm.tar.Z"] false;
       Print "Problem downloading file."])
  /\ downloads (trace (for_each [nustar; data] (download_entry Sim.os) Sample.flaky))
     = ["goodfiles_nustar_fpm.tar.Z"; "goodfiles_gen.tar.Z"]
  /\ outcome (for_each [nustar; data] (download_entry Sim.os) Sample.flaky) = Ret tt.
Proof.
  cbv zeta.
  destruct (download_loop_survives_failures Sim.os) as (A & B & C & D).
  split; [|split; [|split]].
  - apply (A ("nustar", "fpm") Sample.nustar_url Sample.flaky (HTTPError 404));
      reflexivity.
  - apply (B ("nustar", "fpm") Sample.nustar_url Sample.bare tt
             (Sim.with_file "goodfiles_nustar_fpm.tar.Z" Sample.bare)
             (OtherError "FileNotFoundError"));
      reflexivity.
  - rewrite C. reflexivity.
  - apply (D [(("nustar", "fpm"), Sample.nustar_url);
              (("data", "gen"), Sample.data_url)]).
Defined.

(* ================================================================== *)
(** ** The second loop: initialise the instruments *)

Section Initialisation.

Variable W : Type.
Variable os : OS W.



End Initialisation.



(** The pattern of line 130 finds the word wherever it stands. *)
Lemma error_pattern_spec (text : string) :
  Re.found (Re.search error_pattern text) = true <->
  exists pre post, text = pre ++ "ERROR" ++ post.
Proof.
  unfold error_pattern. rewrite search_spec. split.
  - intros (p & u & v & -> & L). simpl in L. subst u. now exists p, v.
  - intros (pre & post & ->). exists pre, "ERROR", post. split; reflexivity.
Qed.

(** C3, as the claim words it, fails: a process that writes ERROR on its
    standard error only has ERROR in its combined output, yet the step
    prints no diagnostic and never prints that output. *)
Lemma standard_error_is_not_inspected :
  ~ (forall (W : Type) (os : OS W) (k : key) (link : string) (w w1 : W)
            (p : CompletedProcess) (text : string),
        fst k <> "data" ->
        run os (caldbinfo_argv k) true w = (Ret p, w1) ->
        combined_output os p = Ret text ->
        In (Print text) (trace (initialize_entry os (k, link) w))
        /\ (Re.found (Re.search error_pattern text) = true ->
            In (Print ("Problem downloading " ++ local_name link))
               (trace (initialize_entry os (k, link) w)))).
Proof.
  intros H.
  destruct (H Sim.world Sim.os ("nustar", "fpm") Sample.nustar_url
              Sample.complaining Sample.complaining Sample.complaint
              "ERROR: instrument not found") as [P _];
    [discriminate | reflexivity | reflexivity |].
  vm_compute in P.
  repeat (destruct P as [P|P]; [discriminate P|]). exact P.
Qed.

(** C3, amended.  For an entry whose mission is not data, when caldbinfo
    has run and its standard output decodes to [text], the step has
    announced the instrument, run the command capturing its output and
    printed [text]; it then prints a diagnostic that names the archive's
    file, the last segment of the url, exactly when [text] holds ERROR in
    upper case somewhere. *)
Theorem initialisation_reports_errors
        (W : Type) (os : OS W) (k : key) (link : string) (w w1 : W)
        (p : CompletedProcess) (text : string) :
  fst k <> "data" ->
  run os (caldbinfo_argv k) true w = (Ret p, w1) ->
  decode os "utf-8" (stdout p) = Ret text ->
  initialize_entry os (k, link) w =
  (Ret tt, w1,
   [Print ("Initializing " ++ fst k ++ " " ++ snd k);
    Run (caldbinfo_argv k) true;
    Print text]
   ++ (if Re.found (Re.search error_pattern text)
       then [Print ("Problem downloading " ++ PyStr.last_item (PyStr.split "/" link))]
       else []))%list
  /\ (Re.found (Re.search error_pattern text) = true <->
      exists pre post, text = pre ++ "ERROR" ++ post).
Proof.
  intros N R D. split; [|apply error_pattern_spec].
  rewrite initialize_entry_eq. cbv zeta.
  destruct (String.eqb (fst k) "data") eqn:E;
    [apply String.eqb_eq in E; contradiction|].
  rewrite R, D. reflexivity.
Qed.

Lemma initialisation_reports_errors_witness :
  initialize_entry Sim.os (("nustar", "fpm"), Sample.nustar_url) Sample.loud =
  (Ret tt, Sample.loud,
   [Print "Initializing nustar fpm";
    Run ["caldbinfo"; "INST"; "NUSTAR"; "FPM"] true;
    Print "CALDB ERROR: no index";
    Print "Problem downloading goodfiles_nustar_fpm.tar.Z"]).
Proof.
  refine (proj1 (@initialisation_reports_errors Sim.world Sim.os ("nustar", "fpm")
                   Sample.nustar_url Sample.loud Sample.loud
                   (mkCompleted 0 (list_byte_of_string "CALDB ERROR: no index") [])
                   "CALDB ERROR: no index" _ _ _));
    [discriminate | reflexivity | reflexivity].
Defined.

(* ================================================================== *)
(** ** The link extractor *)

(** C2, as the claim words it, fails: the line of an anchor labelled
    TAR FILE holds an anchor element whose label is the phrase up to case,
    and the pattern of line 83 does not match it. *)
Lemma only_the_first_letter_may_change_case :
  ~ (forall line,
        Re.found (Re.search tar_file_pattern line) = true <->
        labelled_tar_file line).
Proof.
  intros H.
  destruct (H (Sample.anchor "A" "HREF" Sample.nustar_url "TAR FILE")) as [_ B].
  assert (labelled_tar_file (Sample.anchor "A" "HREF" Sample.nustar_url "TAR FILE"))
    as L.
  { exists "<LI>", "A", (" HREF=" ++ Sample.quoted Sample.nustar_url),
           "TAR FILE", "".
    split; [reflexivity|]. split; [reflexivity|].
    exists "", "". reflexivity. }
  specialize (B L). vm_compute in B. discriminate B.
Qed.

(** The labels TAR FILE and tAr file are the phrase up to case, yet their
    lines are not taken for tar-file links and leave the table as it was. *)
Lemma upper_case_labels_do_not_match :
  PyStr.upper "TAR FILE" = PyStr.upper "tar file"
  /\ PyStr.upper "tAr file" = PyStr.upper "tar file"
  /\ Re.found (Re.search tar_file_pattern
                 (Sample.anchor "A" "HREF" Sample.nustar_url "TAR FILE")) = false
  /\ Re.found (Re.search tar_file_pattern
                 (Sample.anchor "a" "href" Sample.nustar_url "tAr file")) = false
  /\ scan_line (Sample.anchor "A" "HREF" Sample.nustar_url "TAR FILE") [] = Ret []
  /\ scan_line (Sample.anchor "a" "href" Sample.nustar_url "tAr file") [] = Ret [].
Proof.
  repeat split; vm_compute; reflexivity.
Qed.

(** C2, amended.  A line is taken for a tar-file link exactly when it
    holds the letter A or a, after it HREF= or href=, and after that
    Tar file or tar file, with no line feed in between: the anchor letter
    and the first letter of the phrase may be of either case, the
    attribute name is all upper or all lower case, and the rest of the
    phrase is in lower case.  Every other line leaves the table as it is. *)
Theorem tar_file_line_iff (line : string) :
  (Re.found (Re.search tar_file_pattern line) = true <->
   exists pre a mid h mid' t post,
     line = pre ++ a ++ mid ++ h ++ "=" ++ mid' ++ t ++ "ar file" ++ post
     /\ (a = "A" \/ a = "a")
     /\ (h = "HREF" \/ h = "href")
     /\ (t = "T" \/ t = "t")
     /\ PyStr.contains_char PyStr.LF mid = false
     /\ PyStr.contains_char PyStr.LF mid' = false)
  /\ (Re.found (Re.search tar_file_pattern line) = false ->
      forall links, scan_line line links = Ret links).
Proof.
  split.
  - rewrite search_spec. unfold tar_file_pattern. split.
    + intros (pre & u & post & -> & L). cbn [Re.lang] in L.
      destruct L as (a & r1 & -> & Ha & mid & r2 & -> & Hmid
                     & h & r3 & -> & Hh & e & r4 & -> & -> & mid' & r5 & ->
                     & Hmid' & t & r6 & -> & Ht & ->).
      exists pre, a, mid, h, mid', t, post.
      repeat split; try assumption.
      repeat rewrite append_assoc. reflexivity.
    + intros (pre & a & mid & h & mid' & t & post & -> & Ha & Hh & Ht & Hm & Hm').
      exists pre, (a ++ mid ++ h ++ "=" ++ mid' ++ t ++ "ar file"), post.
      split; [repeat rewrite append_assoc; reflexivity|].
      cbn [Re.lang].
      exists a, (mid ++ h ++ "=" ++ mid' ++ t ++ "ar file").
      split; [reflexivity|]. split; [exact Ha|].
      exists mid, (h ++ "=" ++ mid' ++ t ++ "ar file").
      split; [reflexivity|]. split; [exact Hm|].
      exists h, ("=" ++ mid' ++ t ++ "ar file").
      split; [reflexivity|]. split; [exact Hh|].
      exists "=", (mid' ++ t ++ "ar file").
      split; [reflexivity|]. split; [reflexivity|].
      exists mid', (t ++ "ar file").
      split; [reflexivity|]. split; [exact Hm'|].
      exists t, "ar file". auto.
  - intros E links. unfold scan_line. now rewrite E.
Qed.

Lemma tar_file_line_iff_witness :
  Re.found (Re.search tar_file_pattern Sample.nustar_line) = true.
Proof.
  apply (proj1 (tar_file_line_iff Sample.nustar_line)).
  exists "<LI><", "A", " ", "HREF",
         (Sample.quoted Sample.nustar_url ++ ">"), "T", "</A>".
  repeat split; auto.
Defined.

Section Extractor.

Lemma clean_url_has_no_quote (captured : string) :
  PyStr.contains_char PyStr.quote (clean_url captured) = false.
Proof.
  unfold clean_url.
  destruct (PyStr.contains_char PyStr.quote captured) eqn:E; [|exact E].
  pose proof (split_pieces PyStr.quote captured) as F.
  pose proof (split_length PyStr.quote captured) as L.
  destruct (PyStr.split PyStr.quote captured) as [|h t]; [discriminate|].
  now inversion F.
Qed.

Lemma clean_url_is_a_prefix (captured : string) :
  PyStr.contains_char PyStr.quote captured = true ->
  exists rest, captured = clean_url captured ++ String PyStr.quote rest.
Proof.
  intros E. unfold clean_url. rewrite E. now apply split_first.
Qed.

Lemma clean_url_count (c : ascii) (captured : string) :
  PyStr.count_char c (clean_url captured) <= PyStr.count_char c captured.
Proof.
  destruct (PyStr.contains_char PyStr.quote captured) eqn:E.
  - destruct (clean_url_is_a_prefix captured E) as [rest H].
    rewrite H at 2. rewrite count_char_app. lia.
  - unfold clean_url. rewrite E. lia.
Qed.

Lemma dict_set_in (k k' : key) (v v' : string) (d : dict) :
  In (k', v') (dict_set k v d) -> (k', v') = (k, v) \/ In (k', v') d.
Proof.
  induction d as [|[k0 v0] d IH]; simpl.
  - intros [H|[]]. left. now symmetry.
  - destruct (key_eqb k0 k); simpl.
    + intros [H|H]; [left; now symmetry | right; now right].
    + intros [H|H]; [right; now left|].
      destruct (IH H) as [X|X]; [now left | right; now right].
Qed.

Lemma store_link_clean (url : string) (d d' : dict) :
  PyStr.contains_char PyStr.quote url = false ->
  quote_free d -> store_link url d = Ret d' -> quote_free d'.
Proof.
  intros U C. unfold store_link.
  destruct (PyStr.rsplit PyStr.slash 3 url) as [|p0 [|p1 [|p2 [|p3 [|p4 r]]]]];
    try discriminate.
  intros [= <-] k v H. apply dict_set_in in H.
  destruct H as [[= -> ->]|H]; [exact U | now apply (C k v)].
Qed.

Lemma scan_line_clean (line : string) (d d' : dict) :
  quote_free d -> scan_line line d = Ret d' -> quote_free d'.
Proof.
  intros C. unfold scan_line.
  destruct (Re.found (Re.search tar_file_pattern line)).
  - destruct (Re.search href_pattern line) as [m|]; [|discriminate].
    destruct (Re.group m 2) as [captured|]; [|discriminate].
    apply store_link_clean; [apply clean_url_has_no_quote | exact C].
  - now intros [= <-].
Qed.

Lemma scan_lines_clean (lines : list string) :
  forall d d', quote_free d -> scan_lines lines d = Ret d' -> quote_free d'.
Proof.
  induction lines as [|line rest IH]; intros d d' C; simpl.
  - now intros [= <-].
  - destruct (scan_line line d) as [d1|e] eqn:E; [|discriminate].
    apply IH. now apply (scan_line_clean line C).
Qed.

Lemma table_of_clean (W : Type) (os : OS W) (fetched : result response) (d : dict) :
  table_of os fetched = Ret (Some d) -> quote_free d.
Proof.
  unfold table_of. destruct fetched as [website|e]; [|discriminate].
  destruct (decode os _ (body website)) as [html|e]; [|discriminate].
  destruct (scan_lines (PyStr.splitlines html) []) as [d0|e] eqn:E;
    [|discriminate].
  intros [= <-]. eapply scan_lines_clean; [|exact E].
  intros k url [].
Qed.

(** What [rsplit('/', 3)] returns when there are three slashes or more. *)
Lemma rsplit_three (url : string) :
  3 <= PyStr.count_char PyStr.slash url ->
  let parts := PyStr.split PyStr.slash url in
  let n := List.length parts in
  PyStr.rsplit PyStr.slash 3 url =
  [PyStr.join PyStr.slash (firstn (n - 3) parts);
   nth (n - 3) parts ""; nth (n - 2) parts ""; nth (n - 1) parts ""].
Proof.
  intros C. cbv zeta. unfold PyStr.rsplit.
  pose proof (split_length PyStr.slash url) as L.
  set (parts := PyStr.split PyStr.slash url) in *.
  destruct (Nat.leb_spec (List.length parts) 4) as [Le|Gt].
  - destruct parts as [|p0 [|p1 [|p2 [|p3 [|p4 r]]]]]; simpl in L, Le; try lia.
    reflexivity.
  - f_equal.
    rewrite (@skipn_last_three string "" (List.length parts - 3)) by lia.
    replace (List.length parts - 3 + 1) with (List.length parts - 2) by lia.
    replace (List.length parts - 3 + 2) with (List.length parts - 1) by lia.
    reflexivity.
Qed.

(** With fewer than three slashes there are fewer than four pieces. *)
Lemma rsplit_short (url : string) :
  PyStr.count_char PyStr.slash url < 3 ->
  List.length (PyStr.rsplit PyStr.slash 3 url) < 4.
Proof.
  intros C. unfold PyStr.rsplit.
  pose proof (split_length PyStr.slash url) as L.
  destruct (Nat.leb_spec (List.length (PyStr.split PyStr.slash url)) 4); lia.
Qed.

Lemma store_link_short (url : string) (d : dict) :
  PyStr.count_char PyStr.slash url < 3 -> store_link url d = Raise ValueError.
Proof.
  intros C. apply rsplit_short in C. unfold store_link.
  destruct (PyStr.rsplit PyStr.slash 3 url) as [|p0 [|p1 [|p2 [|p3 [|p4 r]]]]];
    simpl in C; try reflexivity; lia.
Qed.

End Extractor.

(** C8.  The value the second pattern captured is cut at its first double
    quote when it holds one, so that what is left holds none; hence no url
    that [get_telescope_links] puts in the table holds a double quote. *)
Theorem stored_url_has_no_quote :
  (forall captured, PyStr.contains_char PyStr.quote (clean_url captured) = false)
  /\ (forall captured,
        PyStr.contains_char PyStr.quote captured = true ->
        exists rest, captured = clean_url captured ++ String PyStr.quote rest)
  /\ (forall line links links',
        quote_free links -> scan_line line links = Ret links' -> quote_free links')
  /\ (forall (W : Type) (os : OS W) (w : W) (d : dict),
        outcome (get_telescope_links os w) = Ret (Some d) -> quote_free d).
Proof.
  split; [exact clean_url_has_no_quote|].
  split; [exact clean_url_is_a_prefix|].
  split; [intros line links links' C; now apply scan_line_clean|].
  intros W os w d. destruct (get_telescope_links_eq os w) as (t & -> & _).
  unfold outcome. simpl fst. apply table_of_clean.
Qed.

Lemma stored_url_has_no_quote_witness :
  Re.search href_pattern Sample.stray_line
  = Some [(2, Sample.stray_capture); (1, "href")]
  /\ PyStr.contains_char PyStr.quote Sample.stray_capture = true
  /\ (exists rest,
        Sample.stray_capture =
        clean_url Sample.stray_capture ++ String PyStr.quote rest)
  /\ scan_line Sample.stray_line [] = Ret [(("nustar", "fpm"), Sample.nustar_url)]
  /\ quote_free [(("nustar", "fpm"), Sample.nustar_url)].
Proof.
  destruct stored_url_has_no_quote as (A & B & C & D).
  split; [reflexivity|]. split; [reflexivity|].
  split; [apply B; reflexivity|]. split; [reflexivity|].
  apply (C Sample.stray_line [] [(("nustar", "fpm"), Sample.nustar_url)]).
  - intros k url [].
  - reflexivity.
Defined.

(** C4, as the claim words it, fails: the value captured from a line
    with a second quoted attribute has four slashes, three of them after
    its first quote; the cut of lines 85-86 leaves one, and the line makes
    the scan raise instead of giving mission, telescope and file name. *)
Lemma slashes_after_the_first_quote_do_not_count :
  ~ (forall (line : string) (links : dict) (m : Re.groups) (captured : string),
        Re.found (Re.search tar_file_pattern line) = true ->
        Re.search href_pattern line = Some m ->
        Re.group m 2 = Some captured ->
        3 <= PyStr.count_char "/" captured ->
        let parts := PyStr.split "/" captured in
        let n := List.length parts in
        exists url,
          scan_line line links =
          Ret (dict_set (nth (n - 3) parts "", nth (n - 2) parts "") url links)).
Proof.
  intros H.
  destruct (H Sample.slashed_line []
              [(2, Sample.slashed_capture); (1, "href")] Sample.slashed_capture)
    as [url E]; try reflexivity.
  - vm_compute. lia.
  - vm_compute in E. discriminate E.
Qed.

(** C4, amended.  For a line taken for a tar-file link whose href value
    was captured: when the value, cut at its first quote, has fewer than
    three slashes, the unpacking of the four names raises [ValueError],
    which ends the scan of the page; this is so whenever the captured
    value itself has fewer than three.  When the cut value has three or
    more, the pieces [rsplit] returns are the joined front, then the
    third-to-last, the second-to-last and the last segment of the value:
    mission, telescope and file name; the url is stored under
    (mission, telescope). *)
Theorem malformed_href_raises
        (line : string) (links : dict) (m : Re.groups) (captured : string) :
  Re.found (Re.search tar_file_pattern line) = true ->
  Re.search href_pattern line = Some m ->
  Re.group m 2 = Some captured ->
  let url := clean_url captured in
  let parts := PyStr.split "/" url in
  let n := List.length parts in
  (PyStr.count_char "/" url < 3 ->
   scan_line line links = Raise ValueError
   /\ forall rest, scan_lines (line :: rest) links = Raise ValueError)
  /\ (PyStr.count_char "/" captured < 3 ->
      scan_line line links = Raise ValueError)
  /\ (3 <= PyStr.count_char "/" url ->
      PyStr.rsplit "/" 3 url =
      [PyStr.join "/" (firstn (n - 3) parts);
       nth (n - 3) parts ""; nth (n - 2) parts ""; nth (n - 1) parts ""]
      /\ scan_line line links =
         Ret (dict_set (nth (n - 3) parts "", nth (n - 2) parts "") url links)).
Proof.
  intros F S G. cbv zeta.
  assert (scan_line line links = store_link (clean_url captured) links) as E
    by (unfold scan_line; now rewrite F, S, G).
  split; [|split].
  - intros C. assert (scan_line line links = Raise ValueError) as R
      by (rewrite E; now apply store_link_short).
    split; [exact R|]. intros rest. simpl. now rewrite R.
  - intros C. rewrite E. apply store_link_short.
    pose proof (clean_url_count "/" captured). unfold PyStr.slash. lia.
  - intros C. pose proof (rsplit_three (clean_url captured) C) as R.
    cbv zeta in R. split; [exact R|].
    rewrite E. unfold store_link. now rewrite R.
Qed.

Lemma malformed_href_raises_witness :
  scan_line Sample.short_line [] = Raise ValueError
  /\ scan_lines [Sample.short_line; Sample.nustar_line] [] = Raise ValueError
  /\ PyStr.rsplit "/" 3 Sample.nustar_url =
     ["https://heasarc.gsfc.nasa.gov/FTP/caldb/data"; "nustar"; "fpm";
      "goodfiles_nustar_fpm.tar.Z"]
  /\ scan_line Sample.nustar_line [] = Ret [(("nustar", "fpm"), Sample.nustar_url)].
Proof.
  destruct (@malformed_href_raises Sample.short_line []
              [(2, "fpm/goodfiles.tar.Z"); (1, "href")] "fpm/goodfiles.tar.Z"
              eq_refl eq_refl eq_refl) as ([A A'] & B & _); [vm_compute; lia|].
  destruct (@malformed_href_raises Sample.nustar_line []
              [(2, Sample.nustar_url); (1, "HREF")] Sample.nustar_url
              eq_refl eq_refl eq_refl) as (_ & _ & C).
  destruct C as [C C']; [vm_compute; lia|].
  split; [exact A|]. split; [apply A'|]. split; [exact C | exact C'].
Defined.

(* ================================================================== *)
(** ** Running the script again *)

Section Idempotence.

Variable W : Type.
Variable os : OS W.

Lemma download_entry_skips (k : key) (link : string) (w : W) :
  path_exists os (local_name link) w = true ->
  download_entry os (k, link) w = (Ret tt, w, []).
Proof.
  intros E. rewrite download_entry_eq. cbv zeta. now rewrite E.
Qed.

Lemma download_loop_skips (d : dict) (w : W) :
  (forall k link, In (k, link) d -> path_exists os (local_name link) w = true) ->
  for_each (items d) (download_entry os) w = (Ret tt, w, []).
Proof.
  intros H. apply for_each_idle. intros [k link] I.
  apply download_entry_skips. now apply (H k link).
Qed.

Lemma for_each_downloads_nil (A : Type) (body : A -> M W unit) :
  (forall x w, downloads (trace (body x w)) = []) ->
  forall xs w, downloads (trace (for_each xs body w)) = [].
Proof.
  intros Hb xs. induction xs as [|x xs IH]; intros w; [reflexivity|].
  rewrite for_each_cons. specialize (Hb x w).
  destruct (body x w) as [[[u|e] w1] t1]; unfold trace in *; simpl snd in *;
    [|exact Hb].
  specialize (IH w1). destruct (for_each xs body w1) as [[r w2] t2].
  simpl snd in *. now rewrite downloads_app, Hb, IH.
Qed.

Lemma initialize_entry_downloads (entry : key * string) (w : W) :
  downloads (trace (initialize_entry os entry w)) = [].
Proof.
  destruct entry as [k link]. rewrite initialize_entry_eq. cbv zeta.
  destruct (String.eqb (fst k) "data"); [reflexivity|].
  destruct (run os (caldbinfo_argv k) true w) as [[p|e] w1]; [|reflexivity].
  destruct (decode os "utf-8" (stdout p)) as [text|e]; [|reflexivity].
  destruct (Re.found (Re.search error_pattern text)); reflexivity.
Qed.

Hypothesis kept : retentive os.

Lemma grows_for_each (A : Type) (body : A -> M W unit) :
  (forall x, grows os (body x)) -> forall xs, grows os (for_each xs body).
Proof.
  intros G xs. induction xs as [|x xs IH]; intros w f H; [exact H|].
  rewrite for_each_cons. pose proof (G x w f H) as H1.
  destruct (body x w) as [[[u|e] w1] t1]; unfold world_of in *;
    simpl fst in *; simpl snd in *; [|exact H1].
  specialize (IH w1 f H1). destruct (for_each xs body w1) as [[r w2] t2].
  exact IH.
Qed.

Lemma grows_download_entry (entry : key * string) :
  grows os (download_entry os entry).
Proof.
  destruct entry as [k link]. intros w f H.
  rewrite download_entry_eq. cbv zeta.
  destruct (path_exists os (local_name link) w); [exact H|].
  pose proof (urlretrieve_keeps kept link (local_name link) w f H) as H1.
  destruct (urlretrieve os link (local_name link) w) as [[u|e] w1];
    simpl snd in H1; [|exact H1].
  pose proof (run_keeps kept ["tar"; "-xzf"; local_name link] false w1 f H1) as H2.
  destruct (run os _ false w1) as [[p|e] w2]; exact H2.
Qed.

Lemma grows_initialize_entry (entry : key * string) :
  grows os (initialize_entry os entry).
Proof.
  destruct entry as [k link]. intros w f H.
  rewrite initialize_entry_eq. cbv zeta.
  destruct (String.eqb (fst k) "data"); [exact H|].
  pose proof (run_keeps kept (caldbinfo_argv k) true w f H) as H1.
  destruct (run os (caldbinfo_argv k) true w) as [[p|e] w1];
    simpl snd in H1; [|exact H1].
  destruct (decode os "utf-8" (stdout p)); exact H1.
Qed.

Lemma fresh_download_entry (entry : key * string) :
  fresh os (download_entry os entry).
Proof.
  destruct entry as [k link]. intros w f.
  rewrite download_entry_eq. cbv zeta.
  destruct (path_exists os (local_name link) w) eqn:E; [intros []|].
  destruct (urlretrieve os link (local_name link) w) as [[u|e] w1].
  - destruct (run os _ false w1) as [[p|e] w2];
      (intros [<-|[]]; exact E).
  - intros [<-|[]]. exact E.
Qed.

Lemma fresh_for_each (A : Type) (body : A -> M W unit) :
  (forall x, grows os (body x)) ->
  (forall x, fresh os (body x)) ->
  forall xs, fresh os (for_each xs body).
Proof.
  intros G F xs. induction xs as [|x xs IH]; intros w f; [intros []|].
  rewrite for_each_cons. pose proof (F x w f) as F1. pose proof (G x w f) as G1.
  destruct (body x w) as [[[u|e] w1] t1]; unfold trace, world_of in *;
    simpl fst in *; simpl snd in *; [|exact F1].
  specialize (IH w1 f). destruct (for_each xs body w1) as [[r w2] t2].
  simpl snd in *. rewrite downloads_app. intros I.
  apply in_app_or in I. destruct I as [I|I]; [now apply F1|].
  specialize (IH I). destruct (path_exists os f w); [|reflexivity].
  rewrite (G1 eq_refl) in IH. discriminate.
Qed.

(** A run downloads only to names that are free in its directory when
    it enters it. *)
Lemma fresh_download_files (w : W) (dir f : string) :
  getenv os "CALDB" w = Some dir ->
  In f (downloads (trace (download_files os w))) ->
  path_exists os f (snd (chdir os dir w)) = false.
Proof.
  intros E. rewrite (download_files_eq os w E).
  destruct (chdir os dir w) as [[u|e] w1]; simpl snd; [|intros []].
  destruct (get_telescope_links_eq os w1) as (t & -> & Dt & _).
  pose proof (urlopen_keeps kept catalogue_url 90 w1 f) as K2.
  set (w2 := snd (urlopen os catalogue_url 90 w1)) in *.
  assert (path_exists os f w2 = false -> path_exists os f w1 = false) as Back.
  { intros N. destruct (path_exists os f w1); [|reflexivity].
    rewrite (K2 eq_refl) in N. discriminate. }
  destruct (table_of os (fst (urlopen os catalogue_url 90 w1))) as [[d|]|e];
    unfold trace; simpl snd; cbn [downloads]; try (rewrite Dt; intros []).
  pose proof (@fresh_for_each _ (download_entry os) grows_download_entry
                fresh_download_entry (items d) w2 f) as F.
  destruct (for_each (items d) (download_entry os) w2) as [[[u3|e] w3] t3];
    unfold trace in F; simpl snd in F.
  - pose proof (for_each_downloads_nil (initialize_entry os)
                  initialize_entry_downloads (items d) w3) as N.
    destruct (for_each (items d) (initialize_entry os) w3) as [[r w4] t4].
    unfold trace in N. simpl snd in *. cbn [downloads].
    rewrite !downloads_app, Dt, N, app_nil_r. simpl.
    intros I. apply Back. now apply F.
  - simpl snd. cbn [downloads]. rewrite downloads_app, Dt. simpl.
    intros I. apply Back. now apply F.
Qed.

(** After the first loop every archive of the table is in the working
    directory or has been asked for. *)
Lemma download_loop_covers (d : dict) :
  forall w k link,
    In (k, link) d ->
    path_exists os (local_name link)
                (world_of (for_each (items d) (download_entry os) w)) = true
    \/ In (local_name link)
          (downloads (trace (for_each (items d) (download_entry os) w))).
Proof.
  unfold items. induction d as [|[k0 link0] d IH]; intros w k link I;
    [destruct I|].
  rewrite for_each_cons.
  pose proof (@grows_for_each _ (download_entry os) grows_download_entry d) as G.
  assert (path_exists os (local_name link0)
                      (world_of (download_entry os (k0, link0) w)) = true
          \/ In (local_name link0)
                (downloads (trace (download_entry os (k0, link0) w)))) as Head.
  { rewrite download_entry_eq. cbv zeta.
    destruct (path_exists os (local_name link0) w) eqn:E; [now left|].
    right. destruct (urlretrieve os link0 (local_name link0) w) as [[u|e] w1];
      [|now left].
    destruct (run os _ false w1) as [[p|e] w2]; now left. }
  assert (outcome (download_entry os (k0, link0) w) = Ret tt) as R0.
  { rewrite download_entry_eq. cbv zeta.
    destruct (path_exists os (local_name link0) w); [reflexivity|].
    destruct (urlretrieve os link0 (local_name link0) w) as [[ux|ex] wx];
      [|reflexivity].
    destruct (run os _ false wx) as [[px|ex] wy]; reflexivity. }
  destruct (download_entry os (k0, link0) w) as [[[u|e] w1] t1];
    unfold trace, world_of, outcome in *; simpl fst in *; simpl snd in *;
    [|discriminate].
  specialize (IH w1 k link). specialize (G w1).
  destruct (for_each d (download_entry os) w1) as [[r w2] t2].
  unfold trace, world_of in *. simpl fst in *. simpl snd in *.
  rewrite downloads_app.
  destruct I as [[= <- <-]|I].
  - destruct Head as [Hd|Hd]; [left; now apply G|].
    right. apply in_or_app. now left.
  - destruct (IH I) as [X|X]; [now left|].
    right. apply in_or_app. now right.
Qed.

(** What a second run downloads when the table it gets is one whose
    files are all there once it is in its directory. *)
Lemma rerun_downloads (w' : W) (dir : string) :
  getenv os "CALDB" w' = Some dir ->
  (forall u w1 d,
      chdir os dir w' = (Ret u, w1) ->
      table_of os (fst (urlopen os catalogue_url 90 w1)) = Ret (Some d) ->
      forall k link, In (k, link) d ->
                     path_exists os (local_name link) w1 = true) ->
  downloads (trace (download_files os w')) = [].
Proof.
  intros E H. rewrite (download_files_eq os w' E).
  destruct (chdir os dir w') as [[u|e] w1] eqn:C; [|reflexivity].
  specialize (H u w1).
  destruct (get_telescope_links_eq os w1) as (t & -> & Dt & _).
  pose proof (urlopen_keeps kept catalogue_url 90 w1) as K.
  destruct (table_of os (fst (urlopen os catalogue_url 90 w1))) as [[d|]|e];
    unfold trace; simpl snd; cbn [downloads]; try exact Dt.
  rewrite download_loop_skips.
  - pose proof (for_each_downloads_nil (initialize_entry os)
                  initialize_entry_downloads (items d)
                  (snd (urlopen os catalogue_url 90 w1))) as I0.
    destruct (for_each (items d) (initialize_entry os) _) as [[r w4] t4].
    unfold trace in I0. simpl snd in I0. simpl snd. cbn [downloads app].
    now rewrite !downloads_app, Dt, I0.
  - intros k link I. apply K. now apply (H d eq_refl eq_refl k link).
Qed.

Lemma seen_again (w w' : W) (dir : string) :
  getenv os "CALDB" w = Some dir ->
  destination_seen os w' = destination_seen os w ->
  catalogue_seen os w' = catalogue_seen os w ->
  getenv os "CALDB" w' = Some dir
  /\ fst (chdir os dir w') = fst (chdir os dir w)
  /\ fst (urlopen os catalogue_url 90 (snd (chdir os dir w')))
     = fst (urlopen os catalogue_url 90 (snd (chdir os dir w))).
Proof.
  unfold destination_seen, catalogue_seen. intros E. rewrite E.
  destruct (getenv os "CALDB" w') as [dir'|]; [|discriminate].
  intros [= -> D] [= U]. auto.
Qed.

Variable home : string -> W -> Prop.
Hypothesis homed : homing os home.

Lemma home_for_each (A : Type) (body : A -> M W unit) (d : string) :
  (forall x w, home d w -> home d (world_of (body x w))) ->
  forall xs w, home d w -> home d (world_of (for_each xs body w)).
Proof.
  intros Hb xs. induction xs as [|x xs IH]; intros w H; [exact H|].
  rewrite for_each_cons. pose proof (Hb x w H) as H1.
  destruct (body x w) as [[[u|e] w1] t1]; unfold world_of in *;
    simpl fst in *; simpl snd in *; [|exact H1].
  specialize (IH w1 H1). destruct (for_each xs body w1) as [[r w2] t2].
  exact IH.
Qed.

Lemma home_download_entry (d : string) (entry : key * string) (w : W) :
  home d w -> home d (world_of (download_entry os entry w)).
Proof.
  destruct entry as [k link]. intros H.
  rewrite download_entry_eq. cbv zeta.
  destruct (path_exists os (local_name link) w); [exact H|].
  pose proof (@urlretrieve_stays _ _ _ homed d link (local_name link) w H) as H1.
  destruct (urlretrieve os link (local_name link) w) as [[u|e] w1];
    simpl snd in H1; [|exact H1].
  pose proof (@run_stays _ _ _ homed d ["tar"; "-xzf"; local_name link] false _ H1)
    as H2.
  destruct (run os _ false w1) as [[p|e] w2]; exact H2.
Qed.

Lemma home_initialize_entry (d : string) (entry : key * string) (w : W) :
  home d w -> home d (world_of (initialize_entry os entry w)).
Proof.
  destruct entry as [k link]. intros H.
  rewrite initialize_entry_eq. cbv zeta.
  destruct (String.eqb (fst k) "data"); [exact H|].
  pose proof (@run_stays _ _ _ homed d (caldbinfo_argv k) true w H) as H1.
  destruct (run os (caldbinfo_argv k) true w) as [[p|e] w1];
    simpl snd in H1; [|exact H1].
  destruct (decode os "utf-8" (stdout p)); exact H1.
Qed.

(** A second run, started where a first run ended that left every
    archive it asked for in the directory, and given the same destination
    and the same catalogue, downloads nothing. *)
Lemma second_run_downloads_nothing (w : W) :
  let r1 := download_files os w in
  (forall f, In f (downloads (trace r1)) -> path_exists os f (world_of r1) = true) ->
  destination_seen os (world_of r1) = destination_seen os w ->
  catalogue_seen os (world_of r1) = catalogue_seen os w ->
  downloads (trace (download_files os (world_of r1))) = [].
Proof.
  cbv zeta. destruct (getenv os "CALDB" w) as [dir|] eqn:E.
  - intros N D S. destruct (@seen_again w _ dir E D S) as (E' & C' & U').
    apply (@rerun_downloads _ dir E'). intros u' w1' d C1 T k link I.
    rewrite C1 in C', U'. simpl fst in C'. simpl snd in U'. rewrite U' in T.
    pose proof (@home_is_idle _ _ _ homed dir) as Idle.
    revert N C1. rewrite (download_files_eq os w E).
    pose proof (@chdir_enters _ _ _ homed dir w) as Enter.
    destruct (chdir os dir w) as [[u|e] w1]; [|discriminate].
    specialize (Enter u w1 eq_refl). simpl snd in T.
    destruct (get_telescope_links_eq os w1) as (t & -> & Dt & _).
    rewrite T.
    pose proof (@urlopen_stays _ _ _ homed dir catalogue_url 90 w1 Enter) as H2.
    set (w2 := snd (urlopen os catalogue_url 90 w1)) in *.
    pose proof (download_loop_covers d w2 k link I) as L.
    pose proof (@home_for_each _ (download_entry os) dir
                  (fun x w0 => @home_download_entry dir x w0) (items d) w2 H2)
      as H3.
    destruct (for_each (items d) (download_entry os) w2) as [[[u3|e] w3] t3].
    + pose proof (@grows_for_each _ (initialize_entry os) grows_initialize_entry
                    (items d) w3) as G.
      pose proof (@home_for_each _ (initialize_entry os) dir
                    (fun x w0 => @home_initialize_entry dir x w0) (items d) w3 H3)
        as H4.
      destruct (for_each (items d) (initialize_entry os) w3) as [[r w4] t4].
      unfold trace, world_of in *. simpl fst in *. simpl snd in *.
      intros N C1. specialize (Idle w4 (local_name link) H4).
      rewrite C1 in Idle. simpl snd in Idle. rewrite Idle.
      destruct L as [L|L]; [now apply G|].
      apply N. cbn [downloads]. rewrite !downloads_app.
      apply in_or_app. right. apply in_or_app. now left.
    + unfold trace, world_of in *. simpl fst in *. simpl snd in *.
      intros N C1. specialize (Idle w3 (local_name link) H3).
      rewrite C1 in Idle. simpl snd in Idle. rewrite Idle.
      destruct L as [L|L]; [exact L|].
      apply N. cbn [downloads]. rewrite downloads_app.
      apply in_or_app. now right.
  - assert (download_files os w =
            (Ret tt, w, [Print "CALDB environment variable not set. Exiting."]))
      as Q by (unfold download_files; now rewrite E).
    rewrite Q. unfold world_of. simpl fst. simpl snd. intros _ _ _.
    now rewrite Q.
Qed.

End Idempotence.

(** The machine with a working directory deletes nothing. *)
Lemma cwd_retentive : retentive Cwd.os.
Proof.
  constructor.
  - intros u t w f H. exact H.
  - intros u g w f H. simpl in *. unfold Cwd.cwd_urlretrieve.
    destruct (Sim.mem u (Sim.unreachable (Cwd.machine w))); simpl; [exact H|].
    unfold Cwd.on_disk in *. simpl. rewrite H. apply orb_true_r.
  - intros argv c w f H. exact H.
Qed.

(** On it a change of directory ends in the directory, and only a change
    of directory leaves it. *)
Lemma cwd_homing : homing Cwd.os Cwd.home.
Proof.
  constructor; unfold Cwd.home.
  - intros d w u w1. simpl. unfold Cwd.cwd_chdir.
    destruct (String.eqb d ""); [discriminate|]. intros [= _ <-]. reflexivity.
  - intros d w f H. simpl. unfold Cwd.cwd_chdir.
    destruct (String.eqb d ""); [reflexivity|]. simpl.
    unfold Cwd.on_disk. simpl. now rewrite H.
  - intros d u t w H. exact H.
  - intros d u f w H. simpl. unfold Cwd.cwd_urlretrieve.
    destruct (Sim.mem u (Sim.unreachable (Cwd.machine w))); exact H.
  - intros d argv c w H. exact H.
Qed.

(** C6, as the claim words it, fails: on a machine that keeps its files,
    with the same destination and the same catalogue, the second run
    downloads again the archive whose download failed in the first. *)
Lemma failed_download_is_tried_again :
  ~ (forall (W : Type) (os : OS W) (home : string -> W -> Prop) (w : W),
        retentive os ->
        homing os home ->
        let r1 := download_files os w in
        destination_seen os (world_of r1) = destination_seen os w ->
        catalogue_seen os (world_of r1) = catalogue_seen os w ->
        downloads (trace (download_files os (world_of r1))) = []).
Proof.
  intros H.
  specialize (H Cwd.world Cwd.os Cwd.home Sample.flaky_disk
                cwd_retentive cwd_homing eq_refl eq_refl).
  vm_compute in H. discriminate H.
Qed.

(** C6, amended.  In the first loop an entry whose file, the last segment
    of its url, is in the working directory is neither downloaded nor
    unpacked: its step does nothing, and a table whose files are all there
    leaves the loop idle.  On a file system that keeps its files, a run
    downloads only to names that are free in the directory CALDB names
    when it enters it; and on a machine with a working directory a second
    run with the same destination and catalogue downloads nothing when
    every archive the first run asked for is in the directory at its end,
    however the first run ended. *)
Theorem present_files_are_not_downloaded (W : Type) (os : OS W) :
  (forall k link w,
      path_exists os (local_name link) w = true ->
      download_entry os (k, link) w = (Ret tt, w, []))
  /\ (forall d w,
      (forall k link, In (k, link) d -> path_exists os (local_name link) w = true) ->
      for_each (items d) (download_entry os) w = (Ret tt, w, []))
  /\ (retentive os ->
      forall w dir f,
        getenv os "CALDB" w = Some dir ->
        In f (downloads (trace (download_files os w))) ->
        path_exists os f (snd (chdir os dir w)) = false)
  /\ (forall home,
      retentive os ->
      homing os home ->
      forall w,
        let r1 := download_files os w in
        (forall f, In f (downloads (trace r1)) ->
                   path_exists os f (world_of r1) = true) ->
        destination_seen os (world_of r1) = destination_seen os w ->
        catalogue_seen os (world_of r1) = catalogue_seen os w ->
        downloads (trace (download_files os (world_of r1))) = []).
Proof.
  split; [exact (download_entry_skips os)|].
  split; [exact (download_loop_skips os)|].
  split; [intros P w dir f; exact (@fresh_download_files W os P w dir f)|].
  intros home P H w. exact (@second_run_downloads_nothing W os P home H w).
Qed.

Lemma present_files_are_not_downloaded_witness :
  let r1 := download_files Cwd.os Sample.elsewhere in
  let r1' := download_files Cwd.os Sample.bare_disk in
  path_exists Cwd.os "goodfiles_gen.tar.Z" Sample.elsewhere = true
  /\ downloads (trace r1) = ["goodfiles_nustar_fpm.tar.Z"; "goodfiles_gen.tar.Z"]
  /\ download_entry Cwd.os (("nustar", "fpm"), Sample.nustar_url) (world_of r1)
     = (Ret tt, world_of r1, [])
  /\ path_exists Cwd.os "goodfiles_gen.tar.Z"
                 (snd (chdir Cwd.os "/caldb" Sample.elsewhere)) = false
  /\ downloads (trace (download_files Cwd.os (world_of r1))) = []
  /\ outcome r1' = Raise (OtherError "FileNotFoundError")
  /\ In (Print "Problem downloading file.") (trace r1')
  /\ downloads (trace (download_files Cwd.os (world_of r1'))) = [].
Proof.
  cbv zeta.
  destruct (present_files_are_not_downloaded Cwd.os) as (A & B & C & D).
  split; [reflexivity|]. split; [reflexivity|].
  split; [apply A; reflexivity|].
  split; [apply (C cwd_retentive Sample.elsewhere "/caldb" "goodfiles_gen.tar.Z");
          [reflexivity | vm_compute; tauto]|].
  split; [|split; [reflexivity|split; [vm_compute; tauto|]]].
  - apply (D Cwd.home cwd_retentive cwd_homing Sample.elsewhere).
    + vm_compute. intros f [<-|[<-|[]]]; reflexivity.
    + reflexivity.
    + reflexivity.
  - apply (D Cwd.home cwd_retentive cwd_homing Sample.bare_disk).
    + vm_compute. intros f [<-|[<-|[]]]; reflexivity.
    + reflexivity.
    + reflexivity.
Defined.

(* ================================================================== *)
(** ** More on the page fetcher *)

(** X1.  [open_website] never raises, whatever [urlopen] and the codec do:
    it returns a value, and that value is [None] exactly when [urlopen]
    raised or the decoding of the body raised. *)
Theorem open_website_never_raises
        (W : Type) (os : OS W) (url : string) (timeout : Z)
        (split verbose : bool) (w : W) :
  exists r,
    outcome (open_website os url timeout split verbose w) = Ret r
    /\ (r = None <-> fetch_failed os url timeout w).
Proof.
  rewrite open_website_eq. cbv zeta. unfold fetch_failed, encoding_of.
  destruct (urlopen os url timeout w) as [[website|e] w1]; simpl fst.
  - destruct (decode os _ (body website)) as [html|e] eqn:D.
    + eexists. split; [reflexivity|]. split; [discriminate|].
      intros [[e E]|(ws & e & E & D')]; [discriminate|].
      injection E as <-. congruence.
    + exists None. split; [destruct e; reflexivity|].
      split; [|reflexivity]. intros _. right. exists website, e. auto.
  - exists None. split; [destruct e; reflexivity|].
    split; [|reflexivity]. intros _. left. now exists e.
Qed.

(** X2.  The flag [verbose] decides the first message only: with it the
    trace is the message Loading and the url followed by the trace
    without it; the value returned and the world left are the same.
    Either way the page is asked for exactly once, before anything else
    is printed about it. *)
Theorem open_website_verbose_only_announces
        (W : Type) (os : OS W) (url : string) (timeout : Z) (split : bool) (w : W) :
  let quiet := open_website os url timeout split false w in
  let loud := open_website os url timeout split true w in
  outcome loud = outcome quiet
  /\ world_of loud = world_of quiet
  /\ trace loud = Print ("Loading " ++ url) :: trace quiet
  /\ exists rest,
       trace quiet = UrlOpen url timeout :: rest
       /\ (rest = [] \/ exists text, rest = [Print text]).
Proof.
  cbv zeta. rewrite !open_website_eq. cbv zeta.
  destruct (urlopen os url timeout w) as [[website|e] w1].
  - destruct (decode os _ (body website)) as [html|e].
    + repeat split. exists []. split; [reflexivity | now left].
    + destruct e; repeat split; eexists; (split; [reflexivity|]);
        right; eexists; reflexivity.
  - destruct e; repeat split; eexists; (split; [reflexivity|]);
      right; eexists; reflexivity.
Qed.

(* ================================================================== *)
(** ** What the matcher captures *)

Section CaptureFacts.

Import Re.

Lemma length_app (u v : string) :
  String.length (u ++ v) = String.length u + String.length v.
Proof. induction u as [|a u IH]; simpl; [reflexivity | now rewrite IH]. Qed.

Lemma substring_prefix (u v : string) :
  substring 0 (String.length u) (u ++ v) = u.
Proof.
  induction u as [|a u IH]; simpl.
  - destruct v; reflexivity.
  - now rewrite IH.
Qed.

Lemma taken_app (u v : string) : taken (u ++ v) v = u.
Proof.
  unfold taken. rewrite length_app.
  replace (String.length u + String.length v - String.length v)
    with (String.length u) by lia.
  apply substring_prefix.
Qed.

Lemma anystar_result k s g m :
  mtch AnyStar k s g = Some m ->
  exists u v, s = u ++ v /\ PyStr.contains_char PyStr.LF u = false
              /\ k v g = Some m.
Proof.
  induction s as [|a s IH]; intros H.
  - exists "", "". auto.
  - rewrite anystar_cons in H. destruct (Ascii.eqb a PyStr.LF) eqn:E.
    + exists "", (String a s). auto.
    + destruct (mtch AnyStar k s g) as [m'|] eqn:M.
      * injection H as ->. destruct (IH eq_refl) as (u & v & -> & Hu & Hk).
        exists (String a u), v. simpl. rewrite E. auto.
      * exists "", (String a s). auto.
Qed.

(** A result of [mtch] is a result of the continuation, reached after a
    word of the pattern and with the captures that word makes. *)
Lemma mtch_result (r : regex) :
  forall k s g m,
    mtch r k s g = Some m ->
    exists u v g', s = u ++ v /\ derives r u g g' /\ k v g' = Some m.
Proof.
  induction r as [p | | a IHa b IHb | a IHa b IHb | n a IHa]; intros k s g m H.
  - simpl in H. destruct (strip_prefix p s) as [s'|] eqn:E; [|discriminate].
    apply strip_prefix_spec in E. exists p, s', g. simpl. auto.
  - apply anystar_result in H. destruct H as (u & v & -> & Hu & Hk).
    exists u, v, g. simpl. auto.
  - simpl in H. destruct (mtch a k s g) as [m'|] eqn:M.
    + injection H as ->. destruct (IHa _ _ _ _ M) as (u & v & g' & ? & ? & ?).
      exists u, v, g'. simpl. auto.
    + destruct (IHb _ _ _ _ H) as (u & v & g' & ? & ? & ?).
      exists u, v, g'. simpl. auto.
  - simpl in H. destruct (IHa _ _ _ _ H) as (u1 & v1 & g1 & -> & D1 & H1).
    destruct (IHb _ _ _ _ H1) as (u2 & v2 & g2 & -> & D2 & H2).
    exists (u1 ++ u2), v2, g2. rewrite append_assoc.
    split; [reflexivity|]. split; [|exact H2].
    simpl. exists u1, u2, g1. auto.
  - change (mtch a (fun s' g' => k s' ((n, taken s s') :: g')) s g = Some m) in H.
    destruct (IHa _ _ _ _ H) as (u & v & g1 & -> & D & K).
    rewrite taken_app in K. exists u, v, ((n, u) :: g1).
    split; [reflexivity|]. split; [|exact K].
    simpl. exists g1. auto.
Qed.

Lemma search_result (r : regex) (s : string) (m : groups) :
  search r s = Some m ->
  exists pre u post, s = pre ++ u ++ post /\ derives r u [] m.
Proof.
  induction s as [|a s IH]; simpl; intros H.
  - destruct (match_here r "") as [m'|] eqn:E; [|discriminate].
    injection H as ->. unfold match_here in E.
    destruct (mtch_result _ _ _ _ E) as (u & v & g' & ? & ? & [= ->]).
    exists "", u, v. auto.
  - destruct (match_here r (String a s)) as [m'|] eqn:E.
    + injection H as ->. unfold match_here in E.
      destruct (mtch_result _ _ _ _ E) as (u & v & g' & ? & ? & [= ->]).
      exists "", u, v. auto.
    + destruct (IH H) as (pre & u & post & -> & D).
      exists (String a pre), u, post. auto.
Qed.

(** The second pattern's match: the name, the captured value, and where
    they stand in the line. *)
Lemma href_result (line : string) (m : groups) :
  search href_pattern line = Some m ->
  exists pre h captured post,
    m = [(2, captured); (1, h)]
    /\ line = pre ++ h ++ "=" ++ String PyStr.quote captured
              ++ String PyStr.quote post
    /\ (h = "HREF" \/ h = "href")
    /\ PyStr.contains_char PyStr.LF captured = false.
Proof.
  intros H. apply search_result in H.
  destruct H as (pre & u & post & -> & D). unfold href_pattern in D.
  cbn [derives] in D.
  destruct D as (u1 & r1 & g1 & -> & (g0 & Hh & ->) & u2 & r2 & g2 & -> & [-> ->]
                 & u3 & r3 & g3 & -> & (g4 & [Hc ->] & ->) & -> & ->).
  assert (g0 = [] /\ (u1 = "HREF" \/ u1 = "href")) as [-> Hh']
    by (destruct Hh as [[? ?]|[? ?]]; auto).
  exists pre, u1, u3, post. split; [reflexivity|].
  split.
  - repeat rewrite append_assoc. reflexivity.
  - split; [exact Hh' | exact Hc].
Qed.

End CaptureFacts.

(* ================================================================== *)
(** ** More on the link extractor *)

Section TableFacts.

Lemma key_eqb_eq (a b : key) : key_eqb a b = true <-> a = b.
Proof.
  destruct a as [a1 a2], b as [b1 b2]. unfold key_eqb. simpl.
  rewrite andb_true_iff, !String.eqb_eq. split.
  - intros [-> ->]. reflexivity.
  - intros [= -> ->]. auto.
Qed.

Lemma key_eqb_refl (a : key) : key_eqb a a = true.
Proof. now apply key_eqb_eq. Qed.



Lemma keys_set_present (k : key) (v : string) (d : dict) :
  In k (keys d) -> keys (dict_set k v d) = keys d.
Proof.
  induction d as [|[k0 v0] d IH]; simpl; [intros []|].
  destruct (key_eqb k0 k) eqn:E.
  - apply key_eqb_eq in E. subst k0. reflexivity.
  - intros [->|I]; [rewrite key_eqb_refl in E; discriminate|].
    simpl. f_equal. now apply IH.
Qed.

Lemma keys_set_absent (k : key) (v : string) (d : dict) :
  ~ In k (keys d) -> keys (dict_set k v d) = (keys d ++ [k])%list.
Proof.
  induction d as [|[k0 v0] d IH]; simpl; [reflexivity|].
  intros N. destruct (key_eqb k0 k) eqn:E.
  - apply key_eqb_eq in E. subst k0. exfalso. apply N. now left.
  - simpl. f_equal. apply IH. intros I. apply N. now right.
Qed.

Lemma keys_set_nodup (k : key) (v : string) (d : dict) :
  NoDup (keys d) -> NoDup (keys (dict_set k v d)).
Proof.
  intros N. destruct (in_dec (fun a b : key =>
                                match Bool.bool_dec (key_eqb a b) true with
                                | left e => left (proj1 (key_eqb_eq a b) e)
                                | right n => right (fun e => n (proj2 (key_eqb_eq a b) e))
                                end) k (keys d)) as [I|I].
  - now rewrite keys_set_present.
  - rewrite keys_set_absent by exact I.
    apply NoDup_app; [exact N | repeat constructor; intros [] |].
    intros x Hx [<-|[]]. contradiction.
Qed.

Lemma dict_set_length (k : key) (v : string) (d : dict) :
  List.length (dict_set k v d) <= S (List.length d).
Proof.
  induction d as [|[k0 v0] d IH]; simpl; [lia|].
  destruct (key_eqb k0 k); simpl; lia.
Qed.

Lemma last_nth (A : Type) (d : A) (l : list A) :
  last l d = nth (List.length l - 1) l d.
Proof.
  induction l as [|a l IH]; [reflexivity|].
  destruct l as [|b l]; [reflexivity|].
  change (last (a :: b :: l) d) with (last (b :: l) d). rewrite IH.
  simpl. now rewrite Nat.sub_0_r.
Qed.

Lemma join_app (sep : ascii) (a b : list string) :
  a <> [] -> b <> [] ->
  PyStr.join sep (a ++ b) = PyStr.join sep a ++ String sep (PyStr.join sep b).
Proof.
  intros Na Nb. induction a as [|x a IH]; [contradiction|].
  destruct a as [|y a].
  - destruct b as [|z b]; [contradiction|]. reflexivity.
  - change (PyStr.join sep ((x :: y :: a) ++ b))
      with (x ++ String sep (PyStr.join sep ((y :: a) ++ b))).
    rewrite IH by discriminate.
    change (PyStr.join sep (x :: y :: a))
      with (x ++ String sep (PyStr.join sep (y :: a))).
    rewrite append_assoc. reflexivity.
Qed.

(** The four pieces of [rsplit('/', 3)], when there are four. *)
Lemma rsplit_four (url front m t f : string) :
  PyStr.rsplit "/" 3 url = [front; m; t; f] ->
  f = local_name url
  /\ url = front ++ "/" ++ m ++ "/" ++ t ++ "/" ++ f
  /\ PyStr.contains_char "/" m = false
  /\ PyStr.contains_char "/" t = false
  /\ PyStr.contains_char "/" f = false.
Proof.
  intros R.
  assert (3 <= PyStr.count_char "/" url) as C.
  { destruct (Nat.lt_ge_cases (PyStr.count_char "/" url) 3) as [L|G]; [|exact G].
    apply rsplit_short in L. unfold PyStr.slash in L. rewrite R in L.
    simpl in L. lia. }
  pose proof (rsplit_three url C) as T. cbv zeta in T.
  unfold PyStr.slash in T. rewrite R in T.
  pose proof (split_length "/" url) as L.
  pose proof (split_pieces "/" url) as P.
  pose proof (join_split "/" url) as J.
  set (parts := PyStr.split "/" url) in *.
  injection T as -> -> -> ->.
  assert (forall i, i < List.length parts ->
                    PyStr.contains_char "/" (nth i parts "") = false) as Nth.
  { intros i Hi. rewrite Forall_forall in P. apply P. now apply nth_In. }
  split.
  - unfold local_name, PyStr.last_item. fold parts. now rewrite last_nth.
  - split.
    + rewrite <- J at 1.
      rewrite <- (firstn_skipn (List.length parts - 3) parts) at 1.
      rewrite join_app.
      * rewrite (@skipn_last_three string "" (List.length parts - 3)) by lia.
        replace (List.length parts - 3 + 1) with (List.length parts - 2) by lia.
        replace (List.length parts - 3 + 2) with (List.length parts - 1) by lia.
        reflexivity.
      * intros E. apply (f_equal (@List.length string)) in E.
        rewrite length_firstn in E. simpl in E. lia.
      * intros E. apply (f_equal (@List.length string)) in E.
        rewrite length_skipn in E. simpl in E. lia.
    + repeat split; apply Nth; lia.
Qed.

Lemma store_link_ret (url : string) (d d' : dict) :
  store_link url d = Ret d' ->
  exists front m t f,
    PyStr.rsplit "/" 3 url = [front; m; t; f] /\ d' = dict_set (m, t) url d.
Proof.
  unfold store_link.
  destruct (PyStr.rsplit PyStr.slash 3 url) as [|p0 [|p1 [|p2 [|p3 [|p4 r]]]]]
    eqn:R; try discriminate.
  intros [= <-]. exists p0, p1, p2, p3. split; [exact R | reflexivity].
Qed.

Lemma store_link_long (url : string) (d : dict) :
  3 <= PyStr.count_char "/" url -> exists d', store_link url d = Ret d'.
Proof.
  intros C. pose proof (rsplit_three url C) as T. cbv zeta in T.
  unfold store_link. rewrite T. eexists. reflexivity.
Qed.

Lemma store_link_keyed (url : string) (d d' : dict) :
  keyed_by_path d -> store_link url d = Ret d' -> keyed_by_path d'.
Proof.
  intros K S. apply store_link_ret in S.
  destruct S as (front & m & t & f & R & ->).
  intros k u I. apply dict_set_in in I. destruct I as [[= -> ->]|I].
  - destruct (rsplit_four _ R) as (-> & E & Nm & Nt & Nf).
    exists front. simpl fst. simpl snd. auto.
  - now apply K.
Qed.

Lemma store_link_nodup (url : string) (d d' : dict) :
  NoDup (keys d) -> store_link url d = Ret d' -> NoDup (keys d').
Proof.
  intros N S. apply store_link_ret in S.
  destruct S as (front & m & t & f & _ & ->). now apply keys_set_nodup.
Qed.

(** What [scan_line] does with a line, case by case. *)
Lemma scan_line_cases (line : string) (d : dict) :
  (is_tar_line line = false /\ scan_line line d = Ret d)
  \/ (is_tar_line line = true /\ Re.search href_pattern line = None
      /\ scan_line line d = Raise AttributeError)
  \/ (exists m captured,
        is_tar_line line = true /\ Re.search href_pattern line = Some m
        /\ Re.group m 2 = Some captured
        /\ scan_line line d = store_link (clean_url captured) d).
Proof.
  unfold scan_line, is_tar_line.
  destruct (Re.found (Re.search tar_file_pattern line)); [|now left].
  right. destruct (Re.search href_pattern line) as [m|] eqn:S; [|now left].
  right. destruct (href_result _ S) as (pre & h & c & post & -> & _).
  exists [(2, c); (1, h)], c. auto.
Qed.

Lemma scan_lines_invariant (P : dict -> Prop) :
  (forall url d d', P d -> store_link url d = Ret d' -> P d') ->
  forall lines d d', P d -> scan_lines lines d = Ret d' -> P d'.
Proof.
  intros Step lines. induction lines as [|line rest IH]; intros d d' Pd; simpl.
  - now intros [= <-].
  - destruct (scan_line line d) as [d1|e] eqn:E; [|discriminate].
    apply IH.
    destruct (scan_line_cases line d) as [[_ R]|[(_ & _ & R)|(m & c & _ & _ & _ & R)]];
      rewrite R in E.
    + now injection E as <-.
    + discriminate.
    + now apply (Step _ _ _ Pd E).
Qed.

End TableFacts.

(** X3.  A match of the second pattern always carries its two groups: the
    attribute name as written and the captured value, which stands in the
    line between the name with its equals sign and opening quote and a
    closing quote, and holds no line feed.  The lookup of group 2 on line
    84 therefore never yields [None]. *)
Theorem href_value_is_always_captured (line : string) (m : Re.groups) :
  Re.search href_pattern line = Some m ->
  exists pre h captured post,
    Re.group m 1 = Some h
    /\ Re.group m 2 = Some captured
    /\ line = pre ++ h ++ "=" ++ String PyStr.quote captured
              ++ String PyStr.quote post
    /\ (h = "HREF" \/ h = "href")
    /\ PyStr.contains_char PyStr.LF captured = false.
Proof.
  intros S. destruct (href_result _ S) as (pre & h & c & post & -> & E & H & N).
  exists pre, h, c, post. repeat split; auto.
Qed.

Lemma href_value_is_always_captured_witness :
  exists pre h captured post,
    Re.group [(2, Sample.stray_capture); (1, "href")] 1 = Some h
    /\ Re.group [(2, Sample.stray_capture); (1, "href")] 2 = Some captured
    /\ Sample.stray_line = pre ++ h ++ "=" ++ String PyStr.quote captured
                           ++ String PyStr.quote post
    /\ (h = "HREF" \/ h = "href")
    /\ PyStr.contains_char PyStr.LF captured = false.
Proof.
  apply (@href_value_is_always_captured Sample.stray_line
           [(2, Sample.stray_capture); (1, "href")]).
  reflexivity.
Defined.

(** X4.  [scan_line] raises in two ways only, and only on a line the first
    pattern takes: [AttributeError] when the second pattern finds no
    quoted href in the line, [ValueError] when the value, cut at its first
    quote, has fewer than three slashes. *)
Theorem scan_line_raises_two_errors (line : string) (d : dict) (e : exn) :
  scan_line line d = Raise e ->
  is_tar_line line = true
  /\ ((e = AttributeError /\ Re.search href_pattern line = None)
      \/ (e = ValueError
          /\ exists m captured,
               Re.search href_pattern line = Some m
               /\ Re.group m 2 = Some captured
               /\ PyStr.count_char "/" (clean_url captured) < 3)).
Proof.
  intros R.
  destruct (scan_line_cases line d)
    as [[_ E]|[(T & S & E)|(m & c & T & S & G & E)]]; rewrite E in R.
  - discriminate.
  - injection R as <-. split; [exact T|]. now left.
  - split; [exact T|]. right.
    destruct (Nat.lt_ge_cases (PyStr.count_char "/" (clean_url c)) 3) as [L|G3].
    + rewrite (store_link_short _ d) in R by exact L. injection R as <-.
      split; [reflexivity|]. exists m, c. auto.
    + destruct (store_link_long _ d G3) as [d' X]. congruence.
Qed.

Lemma scan_line_raises_two_errors_witness :
  (is_tar_line Sample.unquoted_line = true
   /\ ((AttributeError = AttributeError
        /\ Re.search href_pattern Sample.unquoted_line = None)
       \/ (AttributeError = ValueError
           /\ exists m captured,
                Re.search href_pattern Sample.unquoted_line = Some m
                /\ Re.group m 2 = Some captured
                /\ PyStr.count_char "/" (clean_url captured) < 3)))
  /\ scan_line Sample.short_line [] = Raise ValueError.
Proof.
  split; [|reflexivity].
  apply (@scan_line_raises_two_errors Sample.unquoted_line [] AttributeError).
  reflexivity.
Defined.

(** X5.  When [scan_line] stores a link, the url it stores stands in the
    line right after HREF= or href= and an opening quote and right before
    the next quote, and it goes under the key made of its third-to-last
    and second-to-last segments. *)
Theorem stored_url_stands_between_quotes (line : string) (d d' : dict) :
  is_tar_line line = true ->
  scan_line line d = Ret d' ->
  exists pre h url rest front m t f,
    line = pre ++ h ++ "=" ++ String PyStr.quote url ++ String PyStr.quote rest
    /\ (h = "HREF" \/ h = "href")
    /\ PyStr.contains_char PyStr.quote url = false
    /\ PyStr.rsplit "/" 3 url = [front; m; t; f]
    /\ d' = dict_set (m, t) url d.
Proof.
  intros T R.
  destruct (scan_line_cases line d)
    as [[F _]|[(_ & _ & E)|(m & c & _ & S & G & E)]];
    [congruence | rewrite E in R; discriminate |].
  rewrite E in R. apply store_link_ret in R.
  destruct R as (front & mi & te & f & Rs & ->).
  destruct (href_result _ S) as (pre & h & c' & post & -> & L & H & _).
  simpl in G. injection G as <-.
  assert (exists rest, String PyStr.quote c' ++ String PyStr.quote post
                       = String PyStr.quote (clean_url c')
                         ++ String PyStr.quote rest) as [rest Q].
  { destruct (PyStr.contains_char PyStr.quote c') eqn:C.
    - destruct (clean_url_is_a_prefix c' C) as [r Hr].
      exists (r ++ String PyStr.quote post). rewrite Hr at 1.
      simpl. now rewrite append_assoc.
    - exists post. unfold clean_url. now rewrite C. }
  exists pre, h, (clean_url c'), rest, front, mi, te, f.
  split; [now rewrite L, Q|].
  split; [exact H|]. split; [apply clean_url_has_no_quote|]. auto.
Qed.

Lemma stored_url_stands_between_quotes_witness :
  exists pre h url rest front m t f,
    Sample.stray_line
    = pre ++ h ++ "=" ++ String PyStr.quote url ++ String PyStr.quote rest
    /\ (h = "HREF" \/ h = "href")
    /\ PyStr.contains_char PyStr.quote url = false
    /\ PyStr.rsplit "/" 3 url = [front; m; t; f]
    /\ [(("nustar", "fpm"), Sample.nustar_url)] = dict_set (m, t) url [].
Proof.
  apply (@stored_url_stands_between_quotes Sample.stray_line []
           [(("nustar", "fpm"), Sample.nustar_url)]); reflexivity.
Defined.

(** X6.  In the table [get_telescope_links] returns, every url is its
    front, its mission, its telescope and its file name joined by slashes:
    [rsplit] gives these four pieces back, the key is (mission, telescope),
    the file name is the name the driver saves the archive under, and none
    of the three holds a slash. *)
Theorem table_is_keyed_by_path (W : Type) (os : OS W) (w : W) (d : dict) :
  outcome (get_telescope_links os w) = Ret (Some d) -> keyed_by_path d.
Proof.
  destruct (get_telescope_links_eq os w) as (t & -> & _).
  unfold outcome. simpl fst. unfold table_of.
  destruct (fst (urlopen os catalogue_url 90 w)) as [website|e]; [|discriminate].
  destruct (decode os _ (body website)) as [html|e]; [|discriminate].
  destruct (scan_lines (PyStr.splitlines html) []) as [d0|e] eqn:E;
    [|discriminate].
  intros [= <-].
  eapply scan_lines_invariant with (P := keyed_by_path);
    [exact store_link_keyed | | exact E].
  intros k url [].
Qed.

Lemma table_is_keyed_by_path_witness :
  keyed_by_path [(("nustar", "fpm"), Sample.nustar_url);
                 (("data", "gen"), Sample.data_url)].
Proof.
  apply (@table_is_keyed_by_path Sim.world Sim.os Sample.online). reflexivity.
Defined.

(** X7.  The table [get_telescope_links] returns has each key once,
    however often the page links the same mission and telescope. *)
Theorem table_keys_are_unique (W : Type) (os : OS W) (w : W) (d : dict) :
  outcome (get_telescope_links os w) = Ret (Some d) -> NoDup (keys d).
Proof.
  destruct (get_telescope_links_eq os w) as (t & -> & _).
  unfold outcome. simpl fst. unfold table_of.
  destruct (fst (urlopen os catalogue_url 90 w)) as [website|e]; [|discriminate].
  destruct (decode os _ (body website)) as [html|e]; [|discriminate].
  destruct (scan_lines (PyStr.splitlines html) []) as [d0|e] eqn:E;
    [|discriminate].
  intros [= <-].
  eapply scan_lines_invariant with (P := fun d => NoDup (keys d));
    [exact store_link_nodup | | exact E].
  constructor.
Qed.

Lemma table_keys_are_unique_witness :
  NoDup (keys [(("nustar", "fpm"), Sample.nustar_url);
               (("data", "gen"), Sample.data_url)]).
Proof.
  apply (@table_keys_are_unique Sim.world Sim.os Sample.online). reflexivity.
Defined.



(** X9.  Lines the first pattern does not take play no part: scanning a
    page gives what scanning its tar-file lines alone gives, be it a table
    or an error; and a table has at most one entry per tar-file line. *)
Theorem other_lines_are_ignored (lines : list string) (d : dict) :
  scan_lines lines d = scan_lines (filter is_tar_line lines) d
  /\ forall d',
       scan_lines lines d = Ret d' ->
       List.length d' <= List.length d + List.length (filter is_tar_line lines).
Proof.
  revert d. induction lines as [|line rest IH]; intros d.
  - split; [reflexivity|]. intros d' [= <-]. simpl. lia.
  - simpl filter.
    destruct (scan_line_cases line d)
      as [[F E]|[(T & _ & E)|(m & c & T & _ & _ & E)]].
    + rewrite F. simpl. rewrite E. apply IH.
    + rewrite T. simpl. rewrite E. split; [reflexivity | discriminate].
    + rewrite T. simpl.
      destruct (scan_line line d) as [d1|e] eqn:R.
      * destruct (IH d1) as [I1 I2]. split; [exact I1|].
        intros d' H. specialize (I2 d' H).
        symmetry in E. apply store_link_ret in E.
        destruct E as (front & mi & te & f & _ & ->).
        pose proof (dict_set_length (mi, te) (clean_url c) d). lia.
      * split; [reflexivity | discriminate].
Qed.

Lemma other_lines_are_ignored_witness :
  scan_lines ["<HTML>"; Sample.nustar_line; "<P>no link</P>"; Sample.nustar_patch_line] []
  = scan_lines [Sample.nustar_line; Sample.nustar_patch_line] []
  /\ List.length [(("nustar", "fpm"), Sample.nustar_patch_url)] <= 0 + 2.
Proof.
  destruct (other_lines_are_ignored
              ["<HTML>"; Sample.nustar_line; "<P>no link</P>";
               Sample.nustar_patch_line] []) as [A B].
  split; [exact A|].
  apply (B [(("nustar", "fpm"), Sample.nustar_patch_url)]). reflexivity.
Defined.

(** The words of the first pattern, spelled out. *)
Lemma tar_file_pattern_words (line : string) :
  is_tar_line line = true <->
  exists pre a mid h mid' t post,
    line = pre ++ a ++ mid ++ h ++ "=" ++ mid' ++ t ++ "ar file" ++ post
    /\ (a = "A" \/ a = "a")
    /\ (h = "HREF" \/ h = "href")
    /\ (t = "T" \/ t = "t")
    /\ PyStr.contains_char PyStr.LF mid = false
    /\ PyStr.contains_char PyStr.LF mid' = false.
Proof.
  unfold is_tar_line. rewrite search_spec. unfold tar_file_pattern. split.
  - intros (pre & u & post & -> & L). cbn [Re.lang] in L.
    destruct L as (a & r1 & -> & Ha & mid & r2 & -> & Hmid
                   & h & r3 & -> & Hh & e & r4 & -> & -> & mid' & r5 & ->
                   & Hmid' & t & r6 & -> & Ht & ->).
    exists pre, a, mid, h, mid', t, post.
    repeat split; try assumption.
    repeat rewrite append_assoc. reflexivity.
  - intros (pre & a & mid & h & mid' & t & post & -> & Ha & Hh & Ht & Hm & Hm').
    exists pre, (a ++ mid ++ h ++ "=" ++ mid' ++ t ++ "ar file"), post.
    split; [repeat rewrite append_assoc; reflexivity|].
    cbn [Re.lang].
    exists a, (mid ++ h ++ "=" ++ mid' ++ t ++ "ar file").
    split; [reflexivity|]. split; [exact Ha|].
    exists mid, (h ++ "=" ++ mid' ++ t ++ "ar file").
    split; [reflexivity|]. split; [exact Hm|].
    exists h, ("=" ++ mid' ++ t ++ "ar file").
    split; [reflexivity|]. split; [exact Hh|].
    exists "=", (mid' ++ t ++ "ar file").
    split; [reflexivity|]. split; [reflexivity|].
    exists mid', (t ++ "ar file").
    split; [reflexivity|]. split; [exact Hm'|].
    exists t, "ar file". auto.
Qed.

(** X10.  On the lines [open_website] hands over, which hold no line feed,
    the dot of the first pattern matches every character: a fetched line
    is a tar-file line exactly when A or a, then HREF= or href=, then
    Tar file or tar file stand in it in this order. *)
Theorem fetched_lines_match_by_order (html line : string) :
  In line (PyStr.splitlines html) ->
  (is_tar_line line = true <->
   exists pre a mid h mid' t post,
     line = pre ++ a ++ mid ++ h ++ "=" ++ mid' ++ t ++ "ar file" ++ post
     /\ (a = "A" \/ a = "a")
     /\ (h = "HREF" \/ h = "href")
     /\ (t = "T" \/ t = "t")).
Proof.
  intros I. rewrite tar_file_pattern_words. split.
  - intros (pre & a & mid & h & mid' & t & post & E & Ha & Hh & Ht & _ & _).
    exists pre, a, mid, h, mid', t, post. auto.
  - intros (pre & a & mid & h & mid' & t & post & E & Ha & Hh & Ht).
    exists pre, a, mid, h, mid', t, post.
    pose proof (splitlines_lines html) as F. rewrite Forall_forall in F.
    specialize (F line I PyStr.LF eq_refl). rewrite E in F.
    repeat (rewrite contains_char_app in F; apply orb_false_iff in F;
            destruct F as [? F]).
    repeat split; auto.
Qed.

Lemma fetched_lines_match_by_order_witness :
  is_tar_line Sample.data_line = true.
Proof.
  apply (proj2 (@fetched_lines_match_by_order Sample.page Sample.data_line
                  (or_intror (or_introl eq_refl)))).
  exists "<LI><", "a", " ", "href", (Sample.quoted Sample.data_url ++ ">"),
         "t", "</a>".
  repeat split; auto.
Defined.

(* ================================================================== *)
(** ** More on the driver *)

Section DriverFacts.

Variable W : Type.
Variable os : OS W.

Lemma store_link_raise (url : string) (d : dict) (e : exn) :
  store_link url d = Raise e -> e = ValueError.
Proof.
  unfold store_link.
  destruct (PyStr.rsplit PyStr.slash 3 url) as [|p0 [|p1 [|p2 [|p3 [|p4 r]]]]];
    try discriminate; now intros [= <-].
Qed.

Lemma scan_lines_raise (lines : list string) :
  forall d e, scan_lines lines d = Raise e -> e = AttributeError \/ e = ValueError.
Proof.
  induction lines as [|line rest IH]; intros d e; simpl; [discriminate|].
  destruct (scan_line_cases line d)
    as [[_ E]|[(_ & _ & E)|(m & c & _ & _ & _ & E)]]; rewrite E.
  - apply IH.
  - intros [= <-]. now left.
  - destruct (store_link (clean_url c) d) as [d1|e1] eqn:S; [apply IH|].
    intros [= <-]. right. now apply (store_link_raise _ _ S).
Qed.




End DriverFacts.

(** X11.  A line of the catalogue that makes the scan raise stops the
    whole run: [download_files] raises the same exception, which is
    [AttributeError] or [ValueError], and has by then downloaded nothing
    and started no command, whatever good links stand before that line. *)
Theorem malformed_catalogue_stops_the_run
        (W : Type) (os : OS W) (w w1 : W) (dir : string) (u : unit)
        (website : response) (html : string) (e : exn) :
  getenv os "CALDB" w = Some dir ->
  chdir os dir w = (Ret u, w1) ->
  fst (urlopen os catalogue_url 90 w1) = Ret website ->
  decode os (encoding_of website) (body website) = Ret html ->
  scan_lines (PyStr.splitlines html) [] = Raise e ->
  outcome (download_files os w) = Raise e
  /\ (e = AttributeError \/ e = ValueError)
  /\ downloads (trace (download_files os w)) = []
  /\ commands (trace (download_files os w)) = [].
Proof.
  intros G C U D S. rewrite (download_files_eq os w G), C.
  destruct (get_telescope_links_eq os w1) as (t & -> & Dt & Ct).
  unfold table_of. rewrite U. unfold encoding_of in D. rewrite D, S.
  unfold outcome, trace. simpl fst. simpl snd.
  split; [reflexivity|]. split; [now apply (scan_lines_raise _ _ S)|].
  split; [exact Dt | exact Ct].
Qed.

Lemma malformed_catalogue_stops_the_run_witness :
  scan_lines [Sample.nustar_line] [] = Ret [(("nustar", "fpm"), Sample.nustar_url)]
  /\ outcome (download_files Sim.os Sample.malformed) = Raise ValueError
  /\ (ValueError = AttributeError \/ ValueError = ValueError)
  /\ downloads (trace (download_files Sim.os Sample.malformed)) = []
  /\ commands (trace (download_files Sim.os Sample.malformed)) = [].
Proof.
  split; [reflexivity|].
  apply (@malformed_catalogue_stops_the_run Sim.world Sim.os Sample.malformed
           Sample.malformed "/caldb" tt
           (mkResponse None (list_byte_of_string Sample.malformed_page))
           Sample.malformed_page ValueError); reflexivity.
Defined.

(** X12.  When the change to the directory CALDB names raises, the run
    ends there with that exception: the page is not asked for and nothing
    else happens. *)
Theorem failed_chdir_stops_the_run
        (W : Type) (os : OS W) (w w1 : W) (dir : string) (e : exn) :
  getenv os "CALDB" w = Some dir ->
  chdir os dir w = (Raise e, w1) ->
  download_files os w = (Raise e, w1, [Chdir dir]).
Proof.
  intros G C. now rewrite (download_files_eq os w G), C.
Qed.

Lemma failed_chdir_stops_the_run_witness :
  download_files Sim.no_directory Sample.online =
  (Raise (OtherError "FileNotFoundError"), Sample.online, [Chdir "/caldb"]).
Proof.
  apply (@failed_chdir_stops_the_run Sim.world Sim.no_directory Sample.online
           Sample.online "/caldb" (OtherError "FileNotFoundError"));
    reflexivity.
Defined.

(** X13.  A page without tar-file lines gives the empty table, and with
    the empty table the run ends normally after the change of directory
    and the fetch: both loops do nothing. *)
Theorem empty_table_ends_the_run
        (W : Type) (os : OS W) (w w1 : W) (dir : string) (u : unit) :
  getenv os "CALDB" w = Some dir ->
  chdir os dir w = (Ret u, w1) ->
  outcome (get_telescope_links os w1) = Ret (Some []) ->
  download_files os w =
  (Ret tt, world_of (get_telescope_links os w1),
   Chdir dir :: trace (get_telescope_links os w1))
  /\ trace (download_files os w)
     = [Chdir dir; Print ("Loading " ++ catalogue_url); UrlOpen catalogue_url 90].
Proof.
  intros G C T. rewrite (download_files_eq os w G), C.
  assert (trace (get_telescope_links os w1)
          = [Print ("Loading " ++ catalogue_url); UrlOpen catalogue_url 90]) as Tr.
  { revert T. unfold get_telescope_links, bind. rewrite open_website_eq.
    cbv zeta. unfold lift, ret.
    destruct (urlopen os catalogue_url 90 w1) as [[website|e] w2].
    - destruct (decode os _ (body website)) as [html|e].
      + simpl. destruct (scan_lines (PyStr.splitlines html) []); reflexivity.
      + destruct e; discriminate.
    - destruct e; discriminate. }
  destruct (get_telescope_links os w1) as [[[[d|]|e] w2] t];
    unfold outcome, world_of, trace in *; simpl fst in *; simpl snd in *;
    try discriminate.
  injection T as ->. simpl. rewrite !app_nil_r. rewrite Tr. auto.
Qed.

Lemma empty_table_ends_the_run_witness :
  download_files Sim.os Sample.plain =
  (Ret tt, Sample.plain,
   [Chdir "/caldb"; Print ("Loading " ++ catalogue_url); UrlOpen catalogue_url 90]).
Proof.
  apply (@empty_table_ends_the_run Sim.world Sim.os Sample.plain Sample.plain
           "/caldb" tt); reflexivity.
Defined.



(** X15.  The second loop guards nothing: when caldbinfo cannot be
    started for an entry, or its output cannot be decoded, the exception
    leaves the loop right there, after the announcement and the command,
    and the entries after it are not initialised. *)
Theorem initialisation_failure_ends_the_loop
        (W : Type) (os : OS W) (k : key) (link : string) (rest : dict) (w w1 : W)
        (e : exn) :
  fst k <> "data" ->
  (run os (caldbinfo_argv k) true w = (Raise e, w1)
   \/ exists p, run os (caldbinfo_argv k) true w = (Ret p, w1)
                /\ decode os "utf-8" (stdout p) = Raise e) ->
  for_each (items ((k, link) :: rest)) (initialize_entry os) w =
  (Raise e, w1,
   [Print ("Initializing " ++ fst k ++ " " ++ snd k); Run (caldbinfo_argv k) true]).
Proof.
  intros N H. unfold items. rewrite for_each_cons, initialize_entry_eq. cbv zeta.
  destruct (String.eqb (fst k) "data") eqn:E;
    [apply String.eqb_eq in E; contradiction|].
  destruct H as [R|(p & R & D)]; rewrite R; [reflexivity|].
  now rewrite D.
Qed.

Lemma initialisation_failure_ends_the_loop_witness :
  let table := [(("nustar", "fpm"), Sample.nustar_url);
                (("swift", "xrt"), Sample.nustar_patch_url)] in
  for_each (items table) (initialize_entry Sim.os) Sample.bare =
  (Raise (OtherError "FileNotFoundError"), Sample.bare,
   [Print "Initializing nustar fpm"; Run ["caldbinfo"; "INST"; "NUSTAR"; "FPM"] true])
  /\ for_each (items table) (initialize_entry Sim.seven_bit) Sample.garbled =
     (Raise (OtherError "UnicodeDecodeError"), Sample.garbled,
      [Print "Initializing nustar fpm";
       Run ["caldbinfo"; "INST"; "NUSTAR"; "FPM"] true]).
Proof.
  cbv zeta. split.
  - apply (@initialisation_failure_ends_the_loop Sim.world Sim.os
             ("nustar", "fpm") Sample.nustar_url
             [(("swift", "xrt"), Sample.nustar_patch_url)]
             Sample.bare Sample.bare (OtherError "FileNotFoundError"));
      [discriminate | left; reflexivity].
  - apply (@initialisation_failure_ends_the_loop Sim.world Sim.seven_bit
             ("nustar", "fpm") Sample.nustar_url
             [(("swift", "xrt"), Sample.nustar_patch_url)]
             Sample.garbled Sample.garbled (OtherError "UnicodeDecodeError"));
      [discriminate | right; exists (mkCompleted 0 [Byte.xff] []); split; reflexivity].
Defined.

(** X16.  An entry whose file is not in the working directory is fetched,
    whatever its key, a data bundle as any other: its step prints the
    announcement and asks [urlretrieve] for the link once, under the
    file's name; and tar is started on that name exactly when the
    download returned. *)
Theorem absent_file_is_fetched_once
        (W : Type) (os : OS W) (k : key) (link : string) (w : W) :
  path_exists os (local_name link) w = false ->
  let r := download_entry os (k, link) w in
  (exists rest,
      trace r = Print ("Downloading " ++ fst k ++ " " ++ snd k)
                :: UrlRetrieve link (local_name link) :: rest
      /\ downloads rest = [])
  /\ (commands (trace r) = [tar_argv (local_name link)] <->
      exists u, fst (urlretrieve os link (local_name link) w) = Ret u)
  /\ (commands (trace r) = [] <->
      exists e, fst (urlretrieve os link (local_name link) w) = Raise e).
Proof.
  intros P. cbv zeta. rewrite download_entry_eq. cbv zeta. rewrite P.
  destruct (urlretrieve os link (local_name link) w) as [[u|e] w1]; simpl fst.
  - destruct (run os _ false w1) as [[p|e] w2]; unfold trace; simpl snd;
      (split; [eexists; split; reflexivity|]);
      (split; [split; [intros _; now exists u | reflexivity]|]);
      (split; [discriminate | intros [e' E]; discriminate]).
  - unfold trace. simpl snd.
    split; [eexists; split; reflexivity|].
    split; [split; [discriminate | intros [u E]; discriminate]|].
    split; [intros _; now exists e | reflexivity].
Qed.

Lemma absent_file_is_fetched_once_witness :
  downloads (trace (download_entry Sim.os (("data", "gen"), Sample.data_url)
                                   Sample.online))
  = ["goodfiles_gen.tar.Z"]
  /\ (commands (trace (download_entry Sim.os (("data", "gen"), Sample.data_url)
                                     Sample.online))
      = [tar_argv (local_name Sample.data_url)] <->
      exists u, fst (urlretrieve Sim.os Sample.data_url
                                 (local_name Sample.data_url) Sample.online)
                = Ret u).
Proof.
  destruct (@absent_file_is_fetched_once Sim.world Sim.os ("data", "gen")
              Sample.data_url Sample.online eq_refl) as (_ & B & _).
  split; [reflexivity | exact B].
Defined.

(** X17.  [get_telescope_links] touches the environment once: it asks
    for the catalogue page, with a timeout of 90 seconds, after announcing
    it, and prints at most one more message.  It returns [None] exactly
    when that fetch failed. *)
Theorem get_telescope_links_only_fetches (W : Type) (os : OS W) (w : W) :
  (exists rest,
      trace (get_telescope_links os w)
      = Print ("Loading " ++ catalogue_url) :: UrlOpen catalogue_url 90 :: rest
      /\ (rest = [] \/ exists text, rest = [Print text]))
  /\ world_of (get_telescope_links os w) = snd (urlopen os catalogue_url 90 w)
  /\ (outcome (get_telescope_links os w) = Ret None
      <-> fetch_failed os catalogue_url 90 w).
Proof.
  unfold get_telescope_links, bind, fetch_failed, encoding_of.
  rewrite open_website_eq. cbv zeta. unfold lift, ret.
  destruct (urlopen os catalogue_url 90 w) as [[website|e] w1]; simpl fst;
    simpl snd.
  - destruct (decode os _ (body website)) as [html|e] eqn:D.
    + simpl. destruct (scan_lines (PyStr.splitlines html) []) as [d|e];
        (split; [exists []; split; [reflexivity | now left]|]);
        (split; [reflexivity|]);
        (split; [discriminate|]);
        intros [[e' E]|(ws & e' & E & D')]; try discriminate;
        injection E as <-; congruence.
    + destruct e; simpl;
        (split; [eexists; split; [reflexivity | right; eexists; reflexivity]|]);
        (split; [reflexivity|]);
        (split; [|reflexivity]); intros _; right; eexists; eexists; eauto.
  - destruct e; simpl;
      (split; [eexists; split; [reflexivity | right; eexists; reflexivity]|]);
      (split; [reflexivity|]);
      (split; [|reflexivity]); intros _; left; eexists; reflexivity.
Qed.

Section LocalName.

Lemma last_cons (A : Type) (d x : A) (l : list A) :
  l <> [] -> last (x :: l) d = last l d.
Proof. destruct l; [contradiction | reflexivity]. Qed.

Lemma split_nonempty (sep : ascii) (s : string) : PyStr.split sep s <> [].
Proof.
  intros E. pose proof (split_length sep s) as L. rewrite E in L. discriminate.
Qed.

Lemma split_single (sep : ascii) (s : string) :
  PyStr.contains_char sep s = false -> PyStr.split sep s = [s].
Proof.
  induction s as [|a s IH]; simpl; [reflexivity|].
  destruct (Ascii.eqb a sep); [discriminate|].
  intros H. now rewrite (IH H).
Qed.

Lemma split_last_cons (sep a : ascii) (s : string) :
  PyStr.contains_char sep s = true ->
  PyStr.last_item (PyStr.split sep (String a s))
  = PyStr.last_item (PyStr.split sep s).
Proof.
  intros C. unfold PyStr.last_item. simpl.
  destruct (Ascii.eqb a sep).
  - apply last_cons. apply split_nonempty.
  - pose proof (split_length sep s) as L.
    destruct (PyStr.split sep s) as [|h [|h' t]] eqn:S; simpl in L.
    + discriminate.
    + exfalso. assert (PyStr.count_char sep s = 0) as Z by lia.
      clear -C Z. induction s as [|b s IH]; simpl in *; [discriminate|].
      destruct (Ascii.eqb b sep); [discriminate | auto].
    + reflexivity.
Qed.

(** The last piece is what stands after the last separator. *)
Lemma split_last (sep : ascii) (s : string) :
  PyStr.contains_char sep s = true ->
  exists front,
    s = front ++ String sep (PyStr.last_item (PyStr.split sep s)).
Proof.
  induction s as [|a s IH]; simpl; [discriminate|].
  destruct (PyStr.contains_char sep s) eqn:C.
  - intros _. destruct (IH eq_refl) as [front E].
    exists (String a front).
    change (PyStr.last_item
              (if Ascii.eqb a sep then "" :: PyStr.split sep s
               else match PyStr.split sep s with
                    | [] => [String a ""]
                    | h :: t => String a h :: t
                    end))
      with (PyStr.last_item (PyStr.split sep (String a s))).
    rewrite (@split_last_cons sep a s C). simpl. now rewrite <- E.
  - destruct (Ascii.eqb a sep) eqn:E; [|discriminate]. intros _.
    apply Ascii.eqb_eq in E. subst a. exists "".
    rewrite (@split_single sep s C). reflexivity.
Qed.

End LocalName.

(** X18.  The name an archive is saved under, the url's last segment: it
    holds no slash; a url without a slash is its own name; otherwise the
    name is what stands after the last slash, so that a url ending in a
    slash gives the empty name. *)
Theorem local_name_is_the_last_segment (link : string) :
  PyStr.contains_char "/" (local_name link) = false
  /\ (PyStr.contains_char "/" link = false -> local_name link = link)
  /\ (PyStr.contains_char "/" link = true ->
      exists front, link = front ++ "/" ++ local_name link)
  /\ local_name (link ++ "/") = "".
Proof.
  split; [|split; [|split]].
  - unfold local_name, PyStr.last_item.
    pose proof (split_pieces "/" link) as F. rewrite Forall_forall in F.
    apply F. unfold PyStr.slash.
    destruct (PyStr.split "/" link) as [|h t] eqn:S;
      [now apply split_nonempty in S|].
    rewrite <- S. rewrite last_nth. apply nth_In.
    rewrite S. simpl. lia.
  - intros C. unfold local_name. unfold PyStr.slash.
    now rewrite (@split_single "/" link C).
  - intros C. destruct (@split_last "/" link C) as [front E]. now exists front.
  - assert (PyStr.contains_char "/" (link ++ "/") = true) as C
      by (rewrite contains_char_app; apply orb_true_r).
    destruct (@split_last "/" (link ++ "/") C) as [front E].
    pose proof (split_pieces "/" (link ++ "/")) as F.
    rewrite Forall_forall in F.
    assert (PyStr.contains_char "/" (local_name (link ++ "/")) = false) as N.
    { apply F. unfold local_name, PyStr.last_item, PyStr.slash.
      destruct (PyStr.split "/" (link ++ "/")) as [|h t] eqn:S;
        [now apply split_nonempty in S|].
      rewrite <- S. rewrite last_nth. apply nth_In. rewrite S. simpl. lia. }
    fold (local_name (link ++ "/")) in E.
    assert (forall a b : string,
               a ++ "/" = b ++ String "/" (local_name (link ++ "/")) ->
               local_name (link ++ "/") = "") as Inj.
    { intros a. induction a as [|x a IH]; intros b Eq.
      - destruct b as [|y b]; simpl in Eq.
        + now injection Eq as <-.
        + injection Eq as _ Eq. destruct b; discriminate.
      - destruct b as [|y b]; simpl in Eq.
        + injection Eq as -> Eq. rewrite <- Eq in N.
          rewrite contains_char_app in N. simpl in N.
          rewrite orb_true_r in N. discriminate.
        + injection Eq as _ Eq. now apply (IH b). }
    now apply (Inj link front).
Qed.

Lemma local_name_is_the_last_segment_witness :
  local_name "goodfiles.tar.Z" = "goodfiles.tar.Z"
  /\ exists front, Sample.nustar_url = front ++ "/" ++ local_name Sample.nustar_url.
Proof.
  destruct (local_name_is_the_last_segment "goodfiles.tar.Z") as (_ & A & _).
  destruct (local_name_is_the_last_segment Sample.nustar_url) as (_ & _ & B & _).
  split; [apply A | apply B]; reflexivity.
Defined.

(* ================================================================== *)
(** ** The greedy capture *)

Section Greedy.

Import Re.

Lemma anystar_none k s g :
  mtch AnyStar k s g = None ->
  forall u v, s = u ++ v -> PyStr.contains_char PyStr.LF u = false ->
              k v g = None.
Proof.
  intros N u v -> Hu. destruct (k v g) as [m|] eqn:K; [|reflexivity].
  exfalso. apply (@anystar_complete k u v g Hu); congruence.
Qed.

(** The dot-star hands over the longest run the continuation accepts. *)
Lemma anystar_greedy k s g m :
  mtch AnyStar k s g = Some m ->
  exists u v,
    s = u ++ v
    /\ PyStr.contains_char PyStr.LF u = false
    /\ k v g = Some m
    /\ forall u' v',
         s = u' ++ v' -> PyStr.contains_char PyStr.LF u' = false ->
         String.length u < String.length u' -> k v' g = None.
Proof.
  revert m. induction s as [|a s IH]; intros m H.
  - exists "", "". repeat split; auto.
    intros u' v' E _ L. destruct u'; [simpl in L; lia | discriminate].
  - rewrite anystar_cons in H. destruct (Ascii.eqb a PyStr.LF) eqn:A.
    + exists "", (String a s). repeat split; auto.
      intros u' v' E Hu L. destruct u' as [|b u']; [simpl in L; lia|].
      injection E as <- _. simpl in Hu. rewrite A in Hu. discriminate.
    + destruct (mtch AnyStar k s g) as [m'|] eqn:M.
      * injection H as ->. destruct (IH m eq_refl) as (u & v & -> & Hu & K & Max).
        exists (String a u), v. simpl. rewrite A. repeat split; auto.
        intros u' v' E Hu' L. destruct u' as [|b u']; [simpl in L; lia|].
        injection E as <- E. simpl in Hu'. rewrite A in Hu'. simpl in L.
        apply (Max u' v' E Hu'). lia.
      * exists "", (String a s). repeat split; auto.
        intros u' v' E Hu' L. destruct u' as [|b u']; [simpl in L; lia|].
        injection E as <- E. simpl in Hu'. rewrite A in Hu'.
        now apply (@anystar_none k s g M u' v').
Qed.

Lemma quote_is_no_line_feed : Ascii.eqb PyStr.quote PyStr.LF = false.
Proof. reflexivity. Qed.

(** A match of the second pattern at the start of [s]. *)
Lemma href_here_greedy (s : string) (m : groups) :
  match_here href_pattern s = Some m ->
  exists h captured post,
    m = [(2, captured); (1, h)]
    /\ s = h ++ "=" ++ String PyStr.quote captured ++ String PyStr.quote post
    /\ forall p1 p2,
         post = p1 ++ String PyStr.quote p2 ->
         PyStr.contains_char PyStr.LF p1 = true.
Proof.
  unfold match_here, href_pattern. intros H.
  change (mtch (Grp 1 (Alt (Lit "HREF") (Lit "href")))
               (mtch (Cat (Lit (String "=" (String PyStr.quote "")))
                          (Cat (Grp 2 AnyStar) (Lit (String PyStr.quote ""))))
                     (fun _ g => Some g)) s [] = Some m) in H.
  apply mtch_result in H. destruct H as (h & v & g1 & -> & D & H).
  cbn [derives] in D. destruct D as (g0 & D & ->).
  assert (g0 = []) as -> by (destruct D as [[_ ?]|[_ ?]]; assumption). clear D.
  change (mtch (Lit (String "=" (String PyStr.quote "")))
               (mtch (Grp 2 AnyStar)
                     (mtch (Lit (String PyStr.quote "")) (fun _ g => Some g)))
               v [(1, h)] = Some m) in H.
  apply mtch_result in H. destruct H as (e & v2 & g2 & -> & [-> ->] & H).
  change (mtch AnyStar
               (fun s' g' =>
                  mtch (Lit (String PyStr.quote "")) (fun _ g => Some g) s'
                       ((2, taken v2 s') :: g'))
               v2 [(1, h)] = Some m) in H.
  apply anystar_greedy in H. destruct H as (c & v3 & -> & Hc & K & Max).
  apply mtch_result in K. destruct K as (e & post & g3 & -> & [-> ->] & K).
  injection K as <-. rewrite taken_app.
  exists h, c, post. split; [reflexivity|]. split; [reflexivity|].
  intros p1 p2 -> .
  destruct (PyStr.contains_char PyStr.LF p1) eqn:P; [reflexivity|]. exfalso.
  specialize (Max (c ++ String PyStr.quote p1) (String PyStr.quote p2)).
  assert (mtch (Lit (String PyStr.quote "")) (fun _ g => Some g)
               (String PyStr.quote p2)
               [(2, taken (c ++ String PyStr.quote "" ++ p1 ++ String PyStr.quote p2)
                          (String PyStr.quote p2)); (1, h)] = None) as X.
  { apply Max.
    - rewrite append_assoc. reflexivity.
    - rewrite contains_char_app, Hc. simpl. exact P.
    - rewrite length_app. simpl. lia. }
  simpl in X. discriminate X.
Qed.

Lemma href_search_greedy (line : string) (m : groups) :
  search href_pattern line = Some m ->
  exists pre h captured post,
    m = [(2, captured); (1, h)]
    /\ line = pre ++ h ++ "=" ++ String PyStr.quote captured
              ++ String PyStr.quote post
    /\ forall p1 p2,
         post = p1 ++ String PyStr.quote p2 ->
         PyStr.contains_char PyStr.LF p1 = true.
Proof.
  induction line as [|a s IH]; intros H.
  - vm_compute in H. discriminate H.
  - change (match match_here href_pattern (String a s) with
            | Some m0 => Some m0
            | None => search href_pattern s
            end = Some m) in H.
    destruct (match_here href_pattern (String a s)) as [m'|] eqn:E.
    + injection H as ->.
      destruct (href_here_greedy _ E) as (h & c & post & ? & ? & ?).
      exists "", h, c, post. auto.
    + destruct (IH H) as (pre & h & c & post & ? & -> & ?).
      exists (String a pre), h, c, post. auto.
Qed.

End Greedy.

(** X19.  The group of the second pattern is greedy: what it captures
    runs to the last double quote before the next line feed, so that in a
    fetched line, which holds no line feed, no quote is left after the
    closing one.  A line with a second quoted attribute thus gives a
    capture that holds quotes, which is what the cut of lines 85-86 is
    there for. *)
Theorem href_capture_is_greedy (line : string) (m : Re.groups) :
  Re.search href_pattern line = Some m ->
  exists pre h captured post,
    Re.group m 2 = Some captured
    /\ line = pre ++ h ++ "=" ++ String PyStr.quote captured
              ++ String PyStr.quote post
    /\ (forall p1 p2,
          post = p1 ++ String PyStr.quote p2 ->
          PyStr.contains_char PyStr.LF p1 = true)
    /\ (PyStr.contains_char PyStr.LF line = false ->
        PyStr.contains_char PyStr.quote post = false).
Proof.
  intros S. destruct (href_search_greedy _ S) as (pre & h & c & post & -> & E & G).
  exists pre, h, c, post. split; [reflexivity|]. split; [exact E|].
  split; [exact G|]. intros N.
  destruct (PyStr.contains_char PyStr.quote post) eqn:Q; [|reflexivity].
  exfalso. destruct (split_first _ _ Q) as [rest R].
  pose proof (G _ _ R) as L.
  assert (forall a b, PyStr.contains_char PyStr.LF (a ++ b) = false ->
                      PyStr.contains_char PyStr.LF b = false) as Suffix.
  { intros a b H. rewrite contains_char_app in H.
    apply orb_false_iff in H. tauto. }
  assert (forall x s, PyStr.contains_char PyStr.LF (String x s) = false ->
                      PyStr.contains_char PyStr.LF s = false) as Tail.
  { intros x s H. simpl in H. destruct (Ascii.eqb x PyStr.LF); [discriminate|].
    exact H. }
  rewrite E in N. apply Suffix, Suffix in N.
  change ("=" ++ String PyStr.quote c ++ String PyStr.quote post)
    with (String "=" (String PyStr.quote (c ++ String PyStr.quote post))) in N.
  apply Tail, Tail, Suffix, Tail in N.
  rewrite R, contains_char_app in N. apply orb_false_iff in N.
  destruct N as [N _]. congruence.
Qed.

Lemma href_capture_is_greedy_witness :
  Re.search href_pattern Sample.stray_line
  = Some [(2, Sample.stray_capture); (1, "href")]
  /\ PyStr.contains_char PyStr.quote Sample.stray_capture = true
  /\ exists pre h captured post,
       Re.group [(2, Sample.stray_capture); (1, "href")] 2 = Some captured
       /\ Sample.stray_line = pre ++ h ++ "=" ++ String PyStr.quote captured
                              ++ String PyStr.quote post
       /\ (forall p1 p2,
             post = p1 ++ String PyStr.quote p2 ->
             PyStr.contains_char PyStr.LF p1 = true)
       /\ (PyStr.contains_char PyStr.LF Sample.stray_line = false ->
           PyStr.contains_char PyStr.quote post = false).
Proof.
  split; [reflexivity|]. split; [reflexivity|].
  apply (@href_capture_is_greedy Sample.stray_line
           [(2, Sample.stray_capture); (1, "href")]).
  reflexivity.
Defined.

